(** * The hook execution engine of pre-commit (git-less fork)

    A shallow embedding of [pre_commit/git_adapter.py] and
    [pre_commit/commands/run.py].

    Conventions.
    - Python [str] and [bytes] are [string]; [dict] with string keys is
      [gmap string _]; [frozenset] of tags is [gset string]; [int] is [Z]
      ([bool] being a subtype of [int], [True] is [1]).
    - The outside world (working tree, repository, process state) is a type
      [W] of the external interface; collaborators that live outside the two
      source files ([git], [identify], [re], [output], [color], the
      configuration loader, the hook environments) are fields of [Externals]
      and are taken to return.  The exceptions of the model are the ones the
      two source files raise themselves.
    - Effectful code runs in the monad [M]: a state (world, environment
      dictionary, trace of observable events) is threaded through, and a
      raised exception stops the computation while the state reached so far
      is kept. *)

From Stdlib Require Import ZArith String Ascii List Lia Bool Sorted.
From stdpp Require Import base option list gmap strings fin_maps sets.

Set Warnings "-register-all".

Local Open Scope string_scope.
Local Open Scope list_scope.
Local Open Scope Z_scope.

(** ** Python values, exceptions and results *)

Inductive exn : Type :=
| NotImplementedError
| TypeError (msg : string)
| AttributeError (attr : string).

Inductive result (A : Type) : Type :=
| Ok (a : A)
| Raise (e : exn).
Arguments Ok {A} a.
Arguments Raise {A} e.

Definition is_ok {A} (r : result A) : bool :=
  match r with Ok _ => true | Raise _ => false end.

(** Values that cross a keyword-argument call boundary. *)
Inductive pyval : Type :=
| VNone
| VBool (b : bool)
| VStr (s : string)
| VList (l : list string).

(** [bool(x)] *)
Definition truthy (v : pyval) : bool :=
  match v with
  | VNone => false
  | VBool b => b
  | VStr s => negb (String.eqb s "")
  | VList l => match l with [] => false | _ => true end
  end.

Definition str_truthy (s : string) : bool := negb (String.eqb s "").

Definition opt_truthy (o : option string) : bool :=
  match o with None => false | Some s => str_truthy s end.

Definition int_truthy (z : Z) : bool := negb (z =? 0).

(** ** Binding the arguments of a call: [def f(p1, p2=d2, ...)] called as
    [f(a1, ..., k1=v1, ...)].  A parameter without default has [None]. *)
Module PyCall.

Definition signature := list (string * option pyval).

Fixpoint bind_positional (sig : signature) (pos : list pyval)
  : result (list (string * pyval) * signature) :=
  match pos, sig with
  | [], _ => Ok ([], sig)
  | _ :: _, [] => Raise (TypeError "too many positional arguments")
  | v :: pos', (p, _) :: sig' =>
      match bind_positional sig' pos' with
      | Ok (bound, rest) => Ok ((p, v) :: bound, rest)
      | Raise e => Raise e
      end
  end.

Definition assoc {A} (k : string) (l : list (string * A)) : option A :=
  snd <$> find (fun kv => String.eqb (fst kv) k) l.

(** Every keyword has to name a parameter that is still unbound. *)
Fixpoint check_keywords (bound : list (string * pyval)) (rest : signature)
    (kw : list (string * pyval)) : result unit :=
  match kw with
  | [] => Ok tt
  | (k, _) :: kw' =>
      match assoc k rest with
      | Some _ => check_keywords bound rest kw'
      | None =>
          match assoc k bound with
          | Some _ => Raise (TypeError ("got multiple values for argument '" +:+ k +:+ "'"))
          | None => Raise (TypeError ("got an unexpected keyword argument '" +:+ k +:+ "'"))
          end
      end
  end.

Fixpoint fill_rest (rest : signature) (kw : list (string * pyval))
  : result (list (string * pyval)) :=
  match rest with
  | [] => Ok []
  | (p, dflt) :: rest' =>
      match fill_rest rest' kw with
      | Raise e => Raise e
      | Ok tl =>
          match assoc p kw, dflt with
          | Some v, _ => Ok ((p, v) :: tl)
          | None, Some d => Ok ((p, d) :: tl)
          | None, None => Raise (TypeError ("missing required argument '" +:+ p +:+ "'"))
          end
      end
  end.

Definition bind_args (sig : signature) (pos : list pyval)
    (kw : list (string * pyval)) : result (list (string * pyval)) :=
  match bind_positional sig pos with
  | Raise e => Raise e
  | Ok (bound, rest) =>
      match check_keywords bound rest kw with
      | Raise e => Raise e
      | Ok _ =>
          match fill_rest rest kw with
          | Raise e => Raise e
          | Ok tl => Ok (bound ++ tl)
          end
      end
  end.

Definition arg (p : string) (bound : list (string * pyval)) : pyval :=
  default VNone (assoc p bound).

End PyCall.

(** ** [os.path] (POSIX flavour) *)
Module OsPath.

Definition startswith_sep (s : string) : bool :=
  match s with String "/" _ => true | _ => false end.

Fixpoint endswith_sep (s : string) : bool :=
  match s with
  | EmptyString => false
  | String c EmptyString => Ascii.eqb c "/"
  | String _ s' => endswith_sep s'
  end.

(** [os.path.join(a, b)] *)
Definition join (a b : string) : string :=
  if startswith_sep b then b
  else if negb (str_truthy a) || endswith_sep a then a +:+ b
  else a +:+ "/" +:+ b.

End OsPath.

(** ** [str.split(',')] and [str.strip()] *)
Module Str.

(** The characters [str.isspace] accepts below code point 128. *)
Definition isspace (c : ascii) : bool :=
  let n := nat_of_ascii c in
  ((9 <=? n) && (n <=? 13) || (28 <=? n) && (n <=? 32))%nat.

(** The whitespace of [bytes.strip]. *)
Definition isspace_bytes (c : ascii) : bool :=
  let n := nat_of_ascii c in
  ((9 <=? n) && (n <=? 13) || (n =? 32))%nat.

Fixpoint lstrip_with (sp : ascii -> bool) (s : string) : string :=
  match s with
  | String c s' => if sp c then lstrip_with sp s' else s
  | EmptyString => EmptyString
  end.

Fixpoint rstrip_with (sp : ascii -> bool) (s : string) : string :=
  match s with
  | EmptyString => EmptyString
  | String c s' =>
      match rstrip_with sp s' with
      | EmptyString => if sp c then EmptyString else String c EmptyString
      | r => String c r
      end
  end.

(** [str.strip()] *)
Definition strip (s : string) : string :=
  rstrip_with isspace (lstrip_with isspace s).

(** [bytes.strip()] *)
Definition strip_bytes (s : string) : string :=
  rstrip_with isspace_bytes (lstrip_with isspace_bytes s).

(** [s.split(sep)] for a one-character separator: never an empty list. *)
Fixpoint split (sep : ascii) (s : string) : list string :=
  match s with
  | EmptyString => [EmptyString]
  | String c s' =>
      if Ascii.eqb c sep then EmptyString :: split sep s'
      else match split sep s' with
           | hd :: tl => String c hd :: tl
           | [] => [String c EmptyString]
           end
  end.

End Str.

(** [list.sort()] on strings: ascending code-point order. *)
Fixpoint sort_insert (x : string) (l : list string) : list string :=
  match l with
  | [] => [x]
  | y :: l' => if String.leb x y then x :: l else y :: sort_insert x l'
  end.

Definition list_sort (l : list string) : list string :=
  foldr sort_insert [] l.

(** ** The data of a run *)

(** A directory tree as [os.scandir] shows it.  [DirLink] is a symbolic link
    to a directory: [os.walk] lists it among the directory names and, with
    [followlinks=False], does not descend into it. *)
Inductive fsnode : Type :=
| File (name : string)
| Dir (name : string) (entries : list fsnode)
| DirLink (name : string).

Definition node_name (n : fsnode) : string :=
  match n with File s | Dir s _ | DirLink s => s end.

Definition is_dir_entry (n : fsnode) : bool :=
  match n with File _ => false | Dir _ _ | DirLink _ => true end.

(** Induction on a tree, with the property known of every entry of a
    directory. *)
Fixpoint fsnode_forall_ind (P : fsnode -> Prop)
    (Hfile : forall s, P (File s))
    (Hdir : forall s es, Forall P es -> P (Dir s es))
    (Hlink : forall s, P (DirLink s))
    (n : fsnode) {struct n} : P n :=
  match n with
  | File s => Hfile s
  | DirLink s => Hlink s
  | Dir s es =>
      Hdir s es
        ((fix go (l : list fsnode) : Forall P l :=
            match l with
            | [] => @List.Forall_nil _ P
            | e :: l' =>
                @List.Forall_cons _ P e l' (fsnode_forall_ind P Hfile Hdir Hlink e) (go l')
            end) es)
  end.

(** The tree with every directory entry named in [prunedirs] cut out, at
    every level. *)
Fixpoint cut_tree (prunedirs : list string) (n : fsnode) {struct n} : fsnode :=
  match n with
  | Dir s es =>
      Dir s ((fix go (l : list fsnode) : list fsnode :=
                match l with
                | [] => []
                | e :: l' =>
                    if is_dir_entry e && bool_decide (node_name e ∈ prunedirs)
                    then go l'
                    else cut_tree prunedirs e :: go l'
                end) es)
  | File _ | DirLink _ => n
  end.

(** The entries of a directory after the cut. *)
Fixpoint cut_entries (prunedirs : list string) (l : list fsnode) : list fsnode :=
  match l with
  | [] => []
  | e :: l' =>
      if is_dir_entry e && bool_decide (node_name e ∈ prunedirs)
      then cut_entries prunedirs l'
      else cut_tree prunedirs e :: cut_entries prunedirs l'
  end.

(** A hook, as the orchestrator reads it.  Its [run] capability is
    [hook_run] of the external interface. *)
Record Hook : Type := {
  hook_id : string;
  hook_alias : string;
  hook_name : string;
  hook_files : string;
  hook_exclude : string;
  hook_types : list string;
  hook_exclude_types : list string;
  hook_always_run : bool;
  hook_pass_filenames : bool;
  hook_verbose : bool;
  hook_stages : list string;
  hook_language : string;
  hook_src : string;
  hook_log_file : string
}.

Record Args : Type := {
  args_hook : option string;
  args_hook_stage : string;
  args_files : list string;
  args_all_files : bool;
  args_origin : option string;
  args_source : option string;
  args_verbose : bool;
  args_color : bool;
  args_show_diff_on_failure : bool;
  args_without_git : bool;
  args_root : option string;
  args_commit_msg_filename : string
}.

Record Store : Type := { store_directory : string }.

(** The arguments of [output.get_hook_message]. *)
Record HookMessage : Type := {
  msg_start : string;
  msg_postfix : string;
  msg_end_msg : option string;
  msg_end_len : Z;
  msg_end_color : option string;
  msg_use_color : option bool;
  msg_cols : Z
}.

(** The result of [_diff_dicts]: a dict with the three keys ['added'],
    ['removed'] and ['changed']. *)
Record DiffDict : Type := {
  added : list string;
  removed : list string;
  changed : list string
}.

(** A diff snapshot: the text of [git diff], or the digest of every file. *)
Inductive snapshot : Type :=
| DiffText (out : string)
| Digests (digests : gmap string string).

Global Instance snapshot_eq_dec : EqDecision snapshot.
Proof. solve_decision. Defined.

(** What a run does that can be observed from outside. *)
Inductive event : Type :=
| Write (s : string)
| WriteLine (s : option string) (logfile_name : option string)
| Flush
| LogWarning (s : string)
| LogError (s : string)
| HookRun (hook : Hook) (filenames : list string)
| TagsFromPath (filename : string)
| PPrint (d : option DiffDict)
| PrintDiff (use_color : bool).

(** The filenames handed to the classification oracle, in call order. *)
Definition oracle_calls (tr : list event) : list string :=
  omap (fun ev => match ev with TagsFromPath f => Some f | _ => None end) tr.

(** The hook invocations, in call order. *)
Definition hook_runs (tr : list event) : list (Hook * list string) :=
  omap (fun ev => match ev with HookRun h fs => Some (h, fs) | _ => None end) tr.

(** A context manager: what entering and leaving do to the world. *)
Record ContextManager (W : Type) : Type := {
  ctx_enter : W -> W;
  ctx_exit : W -> W
}.
Arguments ctx_enter {W} _ _.
Arguments ctx_exit {W} _ _.

(** ** The collaborators outside the two source files *)
Record Externals : Type := {
  W : Type;
  Config : Type;
  (* pre_commit.git *)
  git_get_root : W -> string;
  git_get_git_dir : string -> W -> string;
  git_get_remote_url : string -> W -> string;
  git_is_in_merge_conflict : W -> bool;
  git_parse_merge_msg_for_conflicts : string -> list string;
  git_get_conflicted_files : W -> list string;
  git_get_staged_files : option string -> W -> list string;
  git_intent_to_add_files : W -> string * W;
  git_get_all_files : W -> list string;
  git_get_changed_files : string -> string -> W -> list string;
  git_get_diff : W -> string;
  git_head_rev : string -> W -> string;
  git_has_diff : list string -> W -> Z;
  git_has_unmerged_paths : W -> bool;
  git_has_unstaged_config : string -> W -> bool;
  git_commit : string -> W -> string * W;
  git_git_path : string -> string -> W -> string;
  (* os, hashlib, gitignore_parser *)
  scandir : W -> string -> option (list fsnode);
  abspath : W -> string -> string;
  lexists : W -> string -> bool;
  read_file : W -> string -> string;
  sha384_hexdigest : string -> string;
  parse_gitignore : W -> string -> string -> bool;
  (* identify, re *)
  tags_from_path : W -> string -> gset string;
  re_search : string -> string -> bool;
  (* pre_commit.output, pre_commit.color *)
  get_hook_message : HookMessage -> string;
  format_color : string -> string -> bool -> string;
  RED : string;
  GREEN : string;
  YELLOW : string;
  TURQUOISE : string;
  (* clientlib, repository, staged_files_only *)
  load_config : string -> W -> Config;
  config_exclude : Config -> string;
  config_fail_fast : Config -> bool;
  all_hooks : Config -> Store -> W -> list Hook;
  install_hook_envs : list Hook -> Store -> W -> W;
  staged_files_only : string -> ContextManager W;
  (* hook.run(filenames) *)
  hook_run : Hook -> list string -> W -> (Z * string * string) * W
}.

(** ** The state threaded through a run, and its monad *)
Section Engine.

Context (E : Externals).

Record State : Type := {
  world : W E;
  environ : gmap string string;
  trace : list event
}.

Definition M (A : Type) : Type := State -> result A * State.

Definition ret {A} (a : A) : M A := fun st => (Ok a, st).

Definition bind {A B} (c : M A) (k : A -> M B) : M B :=
  fun st =>
    match c st with
    | (Ok a, st') => k a st'
    | (Raise e, st') => (Raise e, st')
    end.

Definition raise {A} (e : exn) : M A := fun st => (Raise e, st).

#[local] Instance M_ret : MRet M := @ret.
#[local] Instance M_bind : MBind M := fun A B k c => bind c k.

(** Read the world; a raised exception stops the run. *)
Definition query {A} (f : W E -> result A) : M A :=
  fun st => (f (world st), st).

Definition emit (ev : event) : M unit :=
  fun st => (Ok tt, {| world := world st; environ := environ st;
                       trace := trace st ++ [ev] |}).

Definition act (f : W E -> W E) : M unit :=
  fun st => (Ok tt, {| world := f (world st); environ := environ st;
                       trace := trace st |}).

Definition act_with {A} (f : W E -> A * W E) : M A :=
  fun st => let '(a, w) := f (world st) in
            (Ok a, {| world := w; environ := environ st; trace := trace st |}).

Definition set_environ (k v : string) : M unit :=
  fun st => (Ok tt, {| world := world st; environ := <[k := v]> (environ st);
                       trace := trace st |}).

Definition get_environ : M (gmap string string) :=
  fun st => (Ok (environ st), st).

(** Errors of a read travel through the [result] type alone. *)
Definition rbind {A B} (r : result A) (k : A -> result B) : result B :=
  match r with Ok a => k a | Raise e => Raise e end.

(** ** [pre_commit/git_adapter.py] *)

(** [dirnames] is changed in place: the indices of the names to prune are
    collected, then deleted last first. *)
Definition _prune_directory_list (dirnames : list string)
    (prunedirs : option (list string)) : list string :=
  match prunedirs with
  | None => dirnames
  | Some prunedirs =>
      let prune_indices :=
        foldl (fun acc i =>
                 match dirnames !! i with
                 | Some d => if bool_decide (d ∈ prunedirs) then acc ++ [i] else acc
                 | None => acc
                 end) [] (seq 0 (length dirnames)) in
      foldl (fun l i => delete i l) dirnames (reverse prune_indices)
  end.

(** The positions, counted from [off], of the names of [l] that are in
    [prunedirs]. *)
Fixpoint pruned_indices (prunedirs : list string) (off : nat) (l : list string)
  : list nat :=
  match l with
  | [] => []
  | d :: l' =>
      (if bool_decide (d ∈ prunedirs) then [off] else [])
      ++ pruned_indices prunedirs (S off) l'
  end.

Definition _exclusive_or (a b : bool) : bool :=
  (negb a && b) || (a && negb b).

Definition _ignore_pathname (w : W E) (pathname : string)
    (ignore_func : string -> bool) (invert : bool) : bool :=
  _exclusive_or invert (ignore_func (abspath E w pathname)).

(** [os.walk(root, topdown=True, followlinks=False)], the caller changing
    the list of directory names of each triple in place ([mutate]) before
    the walk goes on: only the names still listed are descended into. *)
Fixpoint walk_node (mutate : list string -> list string) (path : string)
    (n : fsnode) {struct n} : list (string * list string * list string) :=
  match n with
  | Dir _ entries =>
      let dirnames := mutate (node_name <$> List.filter is_dir_entry entries) in
      let filenames := node_name <$> List.filter (fun e => negb (is_dir_entry e)) entries in
      (path, dirnames, filenames) ::
      (fix descend (l : list fsnode) : list (string * list string * list string) :=
         match l with
         | [] => []
         | d :: l' =>
             (if bool_decide (node_name d ∈ dirnames)
              then walk_node mutate (OsPath.join path (node_name d)) d
              else []) ++ descend l'
         end) entries
  | File _ | DirLink _ => []
  end.

(** The descent of [walk_node] into the entries [l] of the directory [path],
    of which [dirnames] are still listed. *)
Fixpoint walk_entries (mutate : list string -> list string) (path : string)
    (dirnames : list string) (l : list fsnode)
  : list (string * list string * list string) :=
  match l with
  | [] => []
  | d :: l' =>
      (if bool_decide (node_name d ∈ dirnames)
       then walk_node mutate (OsPath.join path (node_name d)) d
       else []) ++ walk_entries mutate path dirnames l'
  end.

Definition os_walk (w : W E) (mutate : list string -> list string)
    (root : string) : list (string * list string * list string) :=
  match scandir E w root with
  | Some entries => walk_node mutate root (Dir root entries)
  | None => []
  end.

Definition _list_filesystem_tree (w : W E) (root : string) (dirs files : bool)
    (ignorefile : option string) (invert : bool)
    (prunedirs : option (list string)) (sort : bool) : list string :=
  let '(invert, gitignore_matches) :=
    match ignorefile with
    | Some f => (invert, parse_gitignore E w f)
    | None => (false, fun _ => false)
    end in
  let all_pathnames :=
    foldl (fun all_pathnames '(prefix, dirnames, filenames) =>
             all_pathnames ++
             List.filter (fun x => negb (_ignore_pathname w x gitignore_matches invert))
               ((OsPath.join prefix <$> List.filter (fun _ => dirs) dirnames) ++
                (OsPath.join prefix <$> List.filter (fun _ => files) filenames)))
          []
          (os_walk w (fun dirnames => _prune_directory_list dirnames prunedirs) root) in
  if sort then list_sort all_pathnames else all_pathnames.

(** Every path the walk comes across: for each triple the directory names
    (when [dirs]) and the file names (when [files]), joined to the prefix. *)
Definition visited_pathnames (w : W E) (root : string) (dirs files : bool)
    (prunedirs : option (list string)) : list string :=
  concat ((fun '(prefix, dirnames, filenames) =>
             (if dirs then OsPath.join prefix <$> dirnames else []) ++
             (if files then OsPath.join prefix <$> filenames else []))
          <$> os_walk w (fun dirnames => _prune_directory_list dirnames prunedirs) root).

(** The parameter list of [_list_filesystem_tree], with its defaults. *)
Definition _list_filesystem_tree_signature : PyCall.signature :=
  [ ("root", None);
    ("dirs", Some (VBool false));
    ("files", Some (VBool true));
    ("ignorefile", Some VNone);
    ("invert", Some (VBool false));
    ("prunedirs", Some VNone);
    ("sort", Some (VBool true)) ].

(** A call of [_list_filesystem_tree] with positional arguments [pos] and
    keyword arguments [kw]. *)
Definition call_list_filesystem_tree (w : W E) (pos : list pyval)
    (kw : list (string * pyval)) : result (list string) :=
  rbind (PyCall.bind_args _list_filesystem_tree_signature pos kw) (fun b =>
  match PyCall.arg "root" b, PyCall.arg "ignorefile" b, PyCall.arg "prunedirs" b with
  | VStr root, (VNone | VStr _) as ignorefile, (VNone | VList _) as prunedirs =>
      Ok (_list_filesystem_tree w root
            (truthy (PyCall.arg "dirs" b)) (truthy (PyCall.arg "files" b))
            (match ignorefile with VStr f => Some f | _ => None end)
            (truthy (PyCall.arg "invert" b))
            (match prunedirs with VList l => Some l | _ => None end)
            (truthy (PyCall.arg "sort" b)))
  | _, _, _ => Raise (TypeError "argument of the wrong type")
  end).

Definition _hash_files (w : W E) (filenames : list string) : gmap string string :=
  foldl (fun digests filename =>
           <[filename := sha384_hexdigest E (read_file E w filename)]> digests)
        ∅ filenames.

(** The keys come in the order of the map's traversal (in Python, the order
    of insertion); the statements below are about membership only. *)
Definition _diff_dicts (dict1 dict2 : gmap string string) : DiffDict :=
  let '(removed_keys, changed_keys) :=
    foldl (fun '(removed_keys, changed_keys) '(key, value) =>
             match dict2 !! key with
             | Some value2 =>
                 if bool_decide (value ≠ value2)
                 then (removed_keys, changed_keys ++ [key])
                 else (removed_keys, changed_keys)
             | None => (removed_keys ++ [key], changed_keys)
             end)
          ([], []) (map_to_list dict1) in
  let added_keys :=
    foldl (fun added_keys key =>
             if bool_decide (key ∉ dom dict1) then added_keys ++ [key] else added_keys)
          [] (fst <$> map_to_list dict2) in
  {| added := added_keys; removed := removed_keys; changed := changed_keys |}.

Record GitAdapter : Type := {
  without_git : bool;
  root : option string;
  _diff_checkpoint : option snapshot
}.

(** [GitAdapter(without_git=..., root=...)] *)
Definition GitAdapter_init (without_git : bool) (root : option string) : GitAdapter :=
  {| without_git := without_git; root := root; _diff_checkpoint := None |}.

Definition get_root (self : GitAdapter) (w : W E) : option string :=
  if without_git self then root self else Some (git_get_root E w).

Definition get_git_dir (self : GitAdapter) (git_root : string) (w : W E) : result string :=
  if without_git self then Raise NotImplementedError
  else Ok (git_get_git_dir E git_root w).

Definition get_remote_url (self : GitAdapter) (git_root : string) (w : W E) : result string :=
  if without_git self then Raise NotImplementedError
  else Ok (git_get_remote_url E git_root w).

Definition is_in_merge_conflict (self : GitAdapter) (w : W E) : bool :=
  if without_git self then false else git_is_in_merge_conflict E w.

Definition parse_merge_msg_for_conflicts (self : GitAdapter) (merge_msg : string) : list string :=
  if without_git self then [] else git_parse_merge_msg_for_conflicts E merge_msg.

Definition get_conflicted_files (self : GitAdapter) (w : W E) : list string :=
  if without_git self then [] else git_get_conflicted_files E w.

Definition get_staged_files (self : GitAdapter) (cwd : option string) (w : W E) : list string :=
  if without_git self then [] else git_get_staged_files E cwd w.

Definition intent_to_add_files (self : GitAdapter) : M string :=
  if without_git self then raise NotImplementedError
  else act_with (git_intent_to_add_files E).

Definition get_all_files (self : GitAdapter) (w : W E) : result (list string) :=
  if without_git self then
    match root self with
    | None => Raise (TypeError "join: expected str, not NoneType")
    | Some root =>
        let ignorefile := OsPath.join root ".gitignore" in
        let ignoredirs := [OsPath.join root ".git"] in
        call_list_filesystem_tree w [VStr root]
          [("ignorefile", VStr ignorefile); ("ignoredirs", VList ignoredirs)]
    end
  else Ok (git_get_all_files E w).

Definition get_changed_files (self : GitAdapter) (new old : string) (w : W E) : list string :=
  if without_git self then [] else git_get_changed_files E new old w.

Definition get_diff (self : GitAdapter) (w : W E) : result snapshot :=
  if without_git self then
    rbind (get_all_files self w) (fun filenames => Ok (Digests (_hash_files w filenames)))
  else Ok (DiffText (git_get_diff E w)).

Definition set_diff_checkpoint (self : GitAdapter) : M GitAdapter :=
  if without_git self then
    d ← query (get_diff self);
    ret {| without_git := without_git self; root := root self;
           _diff_checkpoint := Some d |}
  else ret self.

(** A snapshot used as a dict. *)
Definition as_digests (s : snapshot) : result (gmap string string) :=
  match s with
  | Digests d => Ok d
  | DiffText _ => Raise (TypeError "a dict is required")
  end.

Definition get_checkpointed_diff (self : GitAdapter) (w : W E) : result (option DiffDict) :=
  if without_git self then
    match _diff_checkpoint self with
    | None => Raise (AttributeError "_diff_checkpoint")
    | Some checkpoint =>
        rbind (get_diff self w) (fun current =>
        rbind (as_digests checkpoint) (fun dict1 =>
        rbind (as_digests current) (fun dict2 =>
        Ok (Some (_diff_dicts dict1 dict2)))))
    end
  else Ok None.

Definition print_checkpointed_diff (self : GitAdapter) (color : bool) : M unit :=
  if without_git self then
    d ← query (get_checkpointed_diff self);
    emit (PPrint d)
  else emit (PrintDiff color).

Definition head_rev (self : GitAdapter) (remote : string) (w : W E) : result string :=
  if negb (without_git self) then Raise NotImplementedError
  else Ok (git_head_rev E remote w).

Definition has_diff (self : GitAdapter) (args : list string) (w : W E) : Z :=
  if without_git self then 0 else git_has_diff E args w.

Definition has_checkpointed_diff (self : GitAdapter) (args : list string) (w : W E) : result Z :=
  if without_git self then
    rbind (get_checkpointed_diff self w) (fun diff_dict =>
    match diff_dict with
    | None => Raise (TypeError "'NoneType' object is not subscriptable")
    | Some diff_dict =>
        Ok (Z.b2z ((0 <? Z.of_nat (length (added diff_dict))) ||
                   (0 <? Z.of_nat (length (removed diff_dict))) ||
                   (0 <? Z.of_nat (length (changed diff_dict)))))
    end)
  else Ok (git_has_diff E args w).

Definition has_unmerged_paths (self : GitAdapter) (w : W E) : bool :=
  if without_git self then false else git_has_unmerged_paths E w.

Definition has_unstaged_config (self : GitAdapter) (config_file : string) (w : W E) : bool :=
  if without_git self then false else git_has_unstaged_config E config_file w.

Definition commit (self : GitAdapter) (repo : string) : M string :=
  if without_git self then raise NotImplementedError
  else act_with (git_commit E repo).

Definition git_path (self : GitAdapter) (name repo : string) (w : W E) : result string :=
  if without_git self then Raise NotImplementedError
  else Ok (git_git_path E name repo w).

(** ** [pre_commit/commands/run.py] *)

Definition nl : string := String "010"%char EmptyString.

Definition list_truthy {A} (l : list A) : bool :=
  match l with [] => false | _ => true end.

Definition filter_by_include_exclude (names : list string)
    (include exclude : string) : list string :=
  List.filter (fun filename =>
            re_search E include filename && negb (re_search E exclude filename))
         names.

Record Classifier : Type := {
  filenames : list string;
  _types_cache : gmap string (gset string)
}.

Definition Classifier_init (filenames : list string) : M Classifier :=
  fun st =>
    (Ok {| filenames := List.filter (fun f => lexists E (world st) f) filenames;
           _types_cache := ∅ |}, st).

(** The oracle [identify.tags_from_path]; each call is recorded. *)
Definition call_tags_from_path (filename : string) : M (gset string) :=
  _ ← emit (TagsFromPath filename);
  query (fun w => Ok (tags_from_path E w filename)).

Definition _types_for_file (self : Classifier) (filename : string)
  : M (gset string * Classifier) :=
  match _types_cache self !! filename with
  | Some tags => ret (tags, self)
  | None =>
      tags ← call_tags_from_path filename;
      ret (tags, {| filenames := filenames self;
                    _types_cache := <[filename := tags]> (_types_cache self) |})
  end.

(** What ties a classifier to the oracle calls made for it: the cache holds
    exactly the files the oracle was asked about, each asked about once. *)
Definition cache_inv (self : Classifier) (calls : list string) : Prop :=
  NoDup calls /\ forall f, f ∈ calls <-> is_Some (_types_cache self !! f).

(** A computation that leaves the oracle alone: it only adds events to the
    trace, none of them a call of the oracle, and what it returns is in [Q]. *)
Definition quiet {A} (c : M A) (Q : A -> Prop) : Prop :=
  forall st, exists evs,
    trace (snd (c st)) = trace st ++ evs
    /\ oracle_calls evs = []
    /\ forall a, fst (c st) = Ok a -> Q a.

(** A computation that asks the oracle about no file twice: with the
    [calls] made before it, the calls it adds are without repetition, and
    what it returns satisfies [Q] for the calls made up to then. *)
Definition once {A} (c : M A) (calls : list string)
    (Q : A -> list string -> Prop) : Prop :=
  forall st, exists evs,
    trace (snd (c st)) = trace st ++ evs
    /\ NoDup (calls ++ oracle_calls evs)
    /\ forall a, fst (c st) = Ok a -> Q a (calls ++ oracle_calls evs).

(** What a run is for its classifier: tag lookups, between which the world
    may change (hooks rewrite files). [lookups] returns what each lookup
    answered. *)
Inductive step : Type :=
| Lookup (filename : string)
| Change (f : W E -> W E).

Fixpoint lookups (self : Classifier) (steps : list step)
  : M (list (string * gset string) * Classifier) :=
  match steps with
  | [] => ret ([], self)
  | Lookup filename :: steps' =>
      '(tags, self) ← _types_for_file self filename;
      '(answers, self) ← lookups self steps';
      ret ((filename, tags) :: answers, self)
  | Change f :: steps' =>
      _ ← act f;
      lookups self steps'
  end.

Fixpoint by_types_loop (self : Classifier) (names : list string)
    (types exclude_types : gset string) (acc : list string)
  : M (list string * Classifier) :=
  match names with
  | [] => ret (acc, self)
  | filename :: names' =>
      '(tags, self) ← _types_for_file self filename;
      by_types_loop self names' types exclude_types
        (if bool_decide (types ⊆ tags) && bool_decide (tags ∩ exclude_types = ∅)
         then acc ++ [filename] else acc)
  end.

Definition by_types (self : Classifier) (names types exclude_types : list string)
  : M (list string * Classifier) :=
  by_types_loop self names (list_to_set types) (list_to_set exclude_types) [].

Definition filenames_for_hook (self : Classifier) (hook : Hook)
  : M (list string * Classifier) :=
  let names := filenames self in
  let names := filter_by_include_exclude names (hook_files hook) (hook_exclude hook) in
  by_types self names (hook_types hook) (hook_exclude_types hook).

Definition _get_skips (environ : gmap string string) : gset string :=
  let skips := default "" (environ !! "SKIP") in
  list_to_set (Str.strip <$> List.filter (fun skip => str_truthy (Str.strip skip))
                                    (Str.split "," skips)).

Definition _hook_msg_start (hook : Hook) (verbose : bool) : string :=
  (if verbose then "[" +:+ hook_id hook +:+ "] " else "") +:+ hook_name hook.

Definition SKIPPED : string := "Skipped".
Definition NO_FILES : string := "(no files to check)".

Definition pcre_warning (hook : Hook) : string :=
  "`" +:+ hook_id hook +:+ "` (from " +:+ hook_src hook +:+
  ") uses the deprecated pcre language." +:+ nl +:+
  "The pcre language is scheduled for removal in pre-commit 2.x." +:+ nl +:+
  "The pygrep language is a more portable (and usually drop-in) replacement.".

(** [hook.run(filenames)] *)
Definition call_hook_run (hook : Hook) (filenames : list string)
  : M (Z * string * string) :=
  _ ← emit (HookRun hook filenames);
  act_with (hook_run E hook filenames).

Definition when (b : bool) (c : M unit) : M unit := if b then c else ret tt.

Definition write_stripped (hook : Hook) (out : string) : M unit :=
  when (str_truthy (Str.strip_bytes out))
       (emit (WriteLine (Some (Str.strip_bytes out)) (Some (hook_log_file hook)))).

Definition _run_single_hook (git_shim : GitAdapter) (classifier : Classifier)
    (hook : Hook) (args : Args) (skips : gset string) (cols : Z)
  : M (Z * Classifier) :=
  '(filenames, classifier) ← filenames_for_hook classifier hook;
  _ ← when (String.eqb (hook_language hook) "pcre")
           (emit (LogWarning (pcre_warning hook)));
  if bool_decide (hook_id hook ∈ skips) || bool_decide (hook_alias hook ∈ skips) then
    _ ← emit (Write (get_hook_message E
           {| msg_start := _hook_msg_start hook (args_verbose args);
              msg_postfix := ""; msg_end_msg := Some SKIPPED; msg_end_len := 0;
              msg_end_color := Some (YELLOW E);
              msg_use_color := Some (args_color args); msg_cols := cols |}));
    ret (0, classifier)
  else if negb (list_truthy filenames) && negb (hook_always_run hook) then
    _ ← emit (Write (get_hook_message E
           {| msg_start := _hook_msg_start hook (args_verbose args);
              msg_postfix := NO_FILES; msg_end_msg := Some SKIPPED; msg_end_len := 0;
              msg_end_color := Some (TURQUOISE E);
              msg_use_color := Some (args_color args); msg_cols := cols |}));
    ret (0, classifier)
  else
    _ ← emit (Write (get_hook_message E
           {| msg_start := _hook_msg_start hook (args_verbose args);
              msg_postfix := ""; msg_end_msg := None; msg_end_len := 6;
              msg_end_color := None; msg_use_color := None; msg_cols := cols |}));
    _ ← emit Flush;
    diff_before ← query (get_diff git_shim);
    '(retcode, stdout, stderr) ←
      call_hook_run hook (if hook_pass_filenames hook then filenames else []);
    diff_after ← query (get_diff git_shim);
    let file_modifications := bool_decide (diff_before ≠ diff_after) in
    let retcode := if file_modifications then 1 else retcode in
    let '(retcode, print_color, pass_fail) :=
      if int_truthy retcode then (1, RED E, "Failed") else (0, GREEN E, "Passed") in
    _ ← emit (WriteLine (Some (format_color E pass_fail print_color (args_color args))) None);
    _ ← when ((str_truthy stdout || str_truthy stderr || file_modifications) &&
              (int_truthy retcode || args_verbose args || hook_verbose hook))
          (_ ← emit (WriteLine (Some ("hookid: " +:+ hook_id hook +:+ nl)) None);
           _ ← when file_modifications
                 (_ ← emit (Write "Files were modified by this hook.");
                  _ ← when (str_truthy stdout || str_truthy stderr)
                        (emit (WriteLine (Some " Additional output:") None));
                  emit (WriteLine None None));
           _ ← write_stripped hook stdout;
           _ ← write_stripped hook stderr;
           emit (WriteLine None None));
    ret (retcode, classifier).

Definition _compute_cols (hooks : list Hook) (verbose : bool) : Z :=
  let name_len :=
    if list_truthy hooks
    then foldr Z.max 0
           ((fun hook => Z.of_nat (String.length (_hook_msg_start hook verbose))) <$> hooks)
    else 0 in
  let cols := name_len + 3 + Z.of_nat (String.length NO_FILES) + 1
              + Z.of_nat (String.length SKIPPED) in
  Z.max cols 80.

Definition message_stages : list string := ["prepare-commit-msg"; "commit-msg"].

Definition _all_filenames (git_shim : GitAdapter) (args : Args) (w : W E)
  : result (list string) :=
  if opt_truthy (args_origin args) && opt_truthy (args_source args) then
    Ok (get_changed_files git_shim (default "" (args_origin args))
          (default "" (args_source args)) w)
  else if bool_decide (args_hook_stage args ∈ message_stages) then
    Ok [args_commit_msg_filename args]
  else if list_truthy (args_files args) then
    Ok (args_files args)
  else if args_all_files args then
    get_all_files git_shim w
  else if is_in_merge_conflict git_shim w then
    Ok (get_conflicted_files git_shim w)
  else
    Ok (get_staged_files git_shim None w).

(** The candidate resolution as the specification words it: six sources in
    priority order, each with the condition under which it is taken; the
    first source whose condition holds supplies the files. *)
Inductive candidate_source : Type :=
| RangeDiff | CommitMsgFile | ExplicitFiles | AllFiles | ConflictedFiles | StagedFiles.

Definition spec_priority_order : list candidate_source :=
  [RangeDiff; CommitMsgFile; ExplicitFiles; AllFiles; ConflictedFiles; StagedFiles].

Definition spec_source_applies (git_shim : GitAdapter) (args : Args) (w : W E)
    (src : candidate_source) : bool :=
  match src with
  | RangeDiff => opt_truthy (args_origin args) && opt_truthy (args_source args)
  | CommitMsgFile => bool_decide (args_hook_stage args = "prepare-commit-msg")
                     || bool_decide (args_hook_stage args = "commit-msg")
  | ExplicitFiles => negb (bool_decide (args_files args = []))
  | AllFiles => args_all_files args
  | ConflictedFiles => is_in_merge_conflict git_shim w
  | StagedFiles => true
  end.

Definition spec_source_files (git_shim : GitAdapter) (args : Args) (w : W E)
    (src : candidate_source) : result (list string) :=
  match src with
  | RangeDiff => Ok (get_changed_files git_shim (default "" (args_origin args))
                       (default "" (args_source args)) w)
  | CommitMsgFile => Ok [args_commit_msg_filename args]
  | ExplicitFiles => Ok (args_files args)
  | AllFiles => get_all_files git_shim w
  | ConflictedFiles => Ok (get_conflicted_files git_shim w)
  | StagedFiles => Ok (get_staged_files git_shim None w)
  end.

Definition spec_candidate_files (git_shim : GitAdapter) (args : Args) (w : W E)
  : result (list string) :=
  match List.find (spec_source_applies git_shim args w) spec_priority_order with
  | Some src => spec_source_files git_shim args w src
  | None => Ok []
  end.

(** The [for hook in hooks] loop of [_run_hooks], [break] included. *)
Fixpoint _run_hooks_loop (git_shim : GitAdapter) (fail_fast : bool) (args : Args)
    (skips : gset string) (cols : Z) (hooks : list Hook) (retval : Z)
    (classifier : Classifier) : M (Z * Classifier) :=
  match hooks with
  | [] => ret (retval, classifier)
  | hook :: hooks' =>
      '(r, classifier) ← _run_single_hook git_shim classifier hook args skips cols;
      let retval := Z.lor retval r in
      if int_truthy retval && fail_fast then ret (retval, classifier)
      else _run_hooks_loop git_shim fail_fast args skips cols hooks' retval classifier
  end.

Definition changes_message : string :=
  "pre-commit hook(s) made changes." +:+ nl +:+
  "If you are seeing this message in CI, reproduce locally with: `pre-commit run --all-files`." +:+ nl +:+
  "To run `pre-commit` as part of git workflow, use `pre-commit install`.".

Definition _run_hooks (git_shim : GitAdapter) (config : Config E)
    (hooks : list Hook) (args : Args) : M Z :=
  git_shim ← set_diff_checkpoint git_shim;
  environ ← get_environ;
  let skips := _get_skips environ in
  let cols := _compute_cols hooks (args_verbose args) in
  filenames ← query (_all_filenames git_shim args);
  let filenames := filter_by_include_exclude filenames "" (config_exclude E config) in
  classifier ← Classifier_init filenames;
  '(retval, _) ← _run_hooks_loop git_shim (config_fail_fast E config) args skips cols
                   hooks 0 classifier;
  _ ← when (int_truthy retval && args_show_diff_on_failure args)
        (d ← query (has_checkpointed_diff git_shim []);
         when (int_truthy d)
           (_ ← when (args_all_files args) (emit (WriteLine (Some changes_message) None));
            _ ← emit (WriteLine (Some "All changes made by hooks:") None);
            print_checkpointed_diff git_shim (args_color args)));
  ret retval.

Definition noop_context : ContextManager (W E) :=
  {| ctx_enter := fun w => w; ctx_exit := fun w => w |}.

(** [with ctx: body]: the exit runs however the body ends. *)
Definition with_ctx {A} (ctx : ContextManager (W E)) (body : M A) : M A :=
  fun st =>
    let '(r, st') := (_ ← act (ctx_enter ctx); body) st in
    (r, snd (act (ctx_exit ctx) st')).

Definition run (config_file : string) (store : Store) (args : Args) : M Z :=
  let git_shim := GitAdapter_init (args_without_git args) (args_root args) in
  let no_stash := args_all_files args || list_truthy (args_files args) in
  unmerged ← query (fun w => Ok (has_unmerged_paths git_shim w));
  if unmerged : bool then
    _ ← emit (LogError "Unmerged files.  Resolve before committing.");
    ret 1
  else if xorb (opt_truthy (args_source args)) (opt_truthy (args_origin args)) then
    _ ← emit (LogError "Specify both --origin and --source.");
    ret 1
  else
    unstaged ← query (fun w => Ok (has_unstaged_config git_shim config_file w));
    if (unstaged : bool) && negb no_stash then
      _ ← emit (LogError ("Your pre-commit configuration is unstaged." +:+ nl +:+
                          "`git add " +:+ config_file +:+ "` to fix this."));
      ret 1
    else
      _ ← when (opt_truthy (args_origin args) && opt_truthy (args_source args))
            (_ ← set_environ "PRE_COMMIT_ORIGIN" (default "" (args_origin args));
             set_environ "PRE_COMMIT_SOURCE" (default "" (args_source args)));
      let ctx := if no_stash then noop_context
                 else staged_files_only E (store_directory store) in
      with_ctx ctx
        (config ← query (fun w => Ok (load_config E config_file w));
         all ← query (fun w => Ok (all_hooks E config store w));
         let hooks :=
           List.filter (fun hook =>
                     (negb (opt_truthy (args_hook args))
                      || bool_decide (Some (hook_id hook) = args_hook args)
                      || bool_decide (Some (hook_alias hook) = args_hook args))
                     && bool_decide (args_hook_stage args ∈ hook_stages hook))
                  all in
         if opt_truthy (args_hook args) && negb (list_truthy hooks) then
           _ ← emit (WriteLine (Some ("No hook with id `" +:+
                                      default "" (args_hook args) +:+ "`")) None);
           ret 1
         else
           _ ← act (install_hook_envs E hooks store);
           _run_hooks git_shim config hooks args).

(** ** Vocabulary for the properties of a computation *)

(** Whatever [c] returns is in [Q]. *)
Definition returns {A} (c : M A) (Q : A -> Prop) : Prop :=
  forall st a, fst (c st) = Ok a -> Q a.

(** [c] raises no exception. *)
Definition never_raises {A} (c : M A) : Prop :=
  forall st, is_ok (fst (c st)) = true.

(** [c] leaves the environment dictionary as it is. *)
Definition keeps_environ {A} (c : M A) : Prop :=
  forall st, environ (snd (c st)) = environ st.

(** The tags a classifier answers with for [filename] in the world [w]: the
    cached ones, and the oracle's for a file not yet in the cache. *)
Definition tags_known (self : Classifier) (w : W E) (filename : string) : gset string :=
  default (tags_from_path E w filename) (_types_cache self !! filename).

(** Whether [by_types] lets a file with these tags through. *)
Definition tags_pass (types exclude_types : list string) (tags : gset string) : bool :=
  bool_decide ((list_to_set types : gset string) ⊆ tags)
  && bool_decide (tags ∩ (list_to_set exclude_types : gset string) = ∅).

End Engine.

(** * A small concrete world

    One instance of the external interface, on which the definitions can be
    run: a repository whose state is a few flags and a count of the edits
    hooks made to its files. *)
Module Sample.

Record repo : Type := {
  edits : nat;
  unmerged : bool;
  unstaged_config : bool;
  merge_conflict : bool
}.

Definition clean : repo :=
  {| edits := 0; unmerged := false; unstaged_config := false;
     merge_conflict := false |}.

Definition edit (w : repo) : repo :=
  {| edits := S (edits w); unmerged := unmerged w;
     unstaged_config := unstaged_config w; merge_conflict := merge_conflict w |}.

Record config : Type := { exclude : string; fail_fast : bool }.

(** Literal substring search, with the two patterns that configurations
    use by default: the empty pattern matches everywhere, [^$] matches
    the empty string only. *)
Fixpoint contains (pat s : string) : bool :=
  String.prefix pat s ||
  match s with
  | EmptyString => false
  | String _ s' => contains pat s'
  end.

Definition search (pat s : string) : bool :=
  if String.eqb pat "^$" then String.eqb s "" else contains pat s.

Definition tree : list fsnode :=
  [ Dir ".git" [File "HEAD"; Dir "objects" [File "pack"]];
    File "a.py";
    Dir "src" [File "m.py"; File "m.pyc"];
    DirLink "vendor" ].

Definition hook (id : string) (files : string) (always_run : bool) : Hook :=
  {| hook_id := id; hook_alias := ""; hook_name := id;
     hook_files := files; hook_exclude := "^$";
     hook_types := ["file"]; hook_exclude_types := [];
     hook_always_run := always_run; hook_pass_filenames := true;
     hook_verbose := false; hook_stages := ["commit"];
     hook_language := "system"; hook_src := "local";
     hook_log_file := "" |}.

(** [fixer] rewrites files and exits 0, [failing] exits 3, any other
    hook passes. *)
Definition run_hook (h : Hook) (filenames : list string) (w : repo)
  : (Z * string * string) * repo :=
  if String.eqb (hook_id h) "fixer" then ((0, "", ""), edit w)
  else if String.eqb (hook_id h) "failing" then ((3, "boom", ""), w)
  else ((0, "", ""), w).

Definition hooks : list Hook :=
  [hook "lint" ".py" false; hook "failing" "" true; hook "fixer" "" true].

Definition externals : Externals :=
  {| W := repo;
     Config := config;
     git_get_root := fun _ => "/repo";
     git_get_git_dir := fun git_root _ => OsPath.join git_root ".git";
     git_get_remote_url := fun _ _ => "https://example.invalid/repo";
     git_is_in_merge_conflict := merge_conflict;
     git_parse_merge_msg_for_conflicts := fun _ => [];
     git_get_conflicted_files := fun _ => ["c.py"];
     git_get_staged_files := fun _ _ => ["a.py"; "b.txt"];
     git_intent_to_add_files := fun w => ("", w);
     git_get_all_files := fun _ => ["a.py"; "b.txt"; "c.py"];
     git_get_changed_files := fun _ _ _ => ["b.txt"];
     git_get_diff := fun w => if Nat.eqb (edits w) 0 then "" else "diff --git a/a.py b/a.py";
     git_head_rev := fun _ _ => "0123abc";
     git_has_diff := fun _ w => if Nat.eqb (edits w) 0 then 0 else 1;
     git_has_unmerged_paths := unmerged;
     git_has_unstaged_config := fun _ => unstaged_config;
     git_commit := fun _ w => ("", w);
     git_git_path := fun name repo _ => OsPath.join (OsPath.join repo ".git") name;
     scandir := fun _ path => if String.eqb path "." then Some tree else None;
     abspath := fun _ path => OsPath.join "/repo" path;
     lexists := fun _ _ => true;
     read_file := fun w _ => if Nat.eqb (edits w) 0 then "1" else "2";
     sha384_hexdigest := fun data => "sha384:" +:+ data;
     parse_gitignore := fun _ _ path => contains ".pyc" path;
     tags_from_path := fun w _ => if Nat.eqb (edits w) 0 then {["file"; "text"]} else {["file"]};
     re_search := search;
     get_hook_message := fun m =>
       msg_start m +:+ "..." +:+ msg_postfix m +:+ default "" (msg_end_msg m);
     format_color := fun text _ _ => text;
     RED := "red"; GREEN := "green"; YELLOW := "yellow"; TURQUOISE := "turquoise";
     load_config := fun _ _ => {| exclude := "^$"; fail_fast := true |};
     config_exclude := exclude;
     config_fail_fast := fail_fast;
     all_hooks := fun _ _ _ => hooks;
     install_hook_envs := fun _ _ w => w;
     staged_files_only := fun _ => {| ctx_enter := fun w => w; ctx_exit := fun w => w |};
     hook_run := run_hook |}.

Definition start (w : repo) : State externals :=
  Build_State externals w ∅ [].

Definition args : Args :=
  {| args_hook := None; args_hook_stage := "commit"; args_files := [];
     args_all_files := false; args_origin := None; args_source := None;
     args_verbose := false; args_color := false;
     args_show_diff_on_failure := false; args_without_git := false;
     args_root := None; args_commit_msg_filename := "" |}.

End Sample.

(** * Properties *)

(** ** Sorting *)

Lemma sort_insert_perm x l : sort_insert x l ≡ₚ x :: l.
Proof.
  induction l as [|y l IH]; simpl; [done|].
  destruct (String.leb x y); [done|].
  rewrite IH. apply Permutation_swap.
Qed.

Lemma list_sort_perm l : list_sort l ≡ₚ l.
Proof.
  induction l as [|x l IH]; simpl; [done|].
  by rewrite sort_insert_perm, IH.
Qed.

Lemma sort_insert_sorted x l :
  Sorted (fun a b => String.leb a b = true) l ->
  Sorted (fun a b => String.leb a b = true) (sort_insert x l).
Proof.
  induction 1 as [|y l Hs IH Hhd]; simpl.
  - repeat constructor.
  - destruct (String.leb x y) eqn:Hxy.
    + constructor; [by constructor|by constructor].
    + constructor; [exact IH|].
      assert (Hyx : String.leb y x = true)
        by (destruct (String.leb_total x y) as [H|H]; congruence).
      destruct l as [|z l]; simpl; [by constructor|].
      destruct (String.leb x z); constructor; [done|].
      by inversion Hhd.
Qed.

Lemma list_sort_sorted l : Sorted (fun a b => String.leb a b = true) (list_sort l).
Proof.
  induction l as [|x l IH]; simpl; [constructor|]. by apply sort_insert_sorted.
Qed.

Section Proofs.

Context (E : Externals).

(** ** The tree walker *)

Lemma filter_const {A} (b : bool) (l : list A) :
  List.filter (fun _ => b) l = if b then l else [].
Proof.
  induction l as [|x l IH]; simpl; [by destruct b|].
  rewrite IH. by destruct b.
Qed.

(** *** Pruning removes exactly the listed names *)

Lemma prune_indices_from (prunedirs pre l : list string) (acc : list nat) :
  foldl (fun acc i =>
           match (pre ++ l) !! i with
           | Some d => if bool_decide (d ∈ prunedirs) then acc ++ [i] else acc
           | None => acc
           end) acc (seq (length pre) (length l))
  = acc ++ pruned_indices prunedirs (length pre) l.
Proof.
  revert pre acc. induction l as [|d l IH]; intros pre acc; simpl.
  - by rewrite app_nil_r.
  - rewrite list_lookup_middle by done.
    replace (pre ++ d :: l) with ((pre ++ [d]) ++ l) by by rewrite <- app_assoc.
    replace (S (length pre)) with (length (pre ++ [d]))
      by (rewrite length_app; simpl; lia).
    rewrite IH.
    destruct (bool_decide (d ∈ prunedirs)); simpl; [|done].
    by rewrite <- app_assoc.
Qed.

Lemma delete_pruned_from (prunedirs pre l : list string) :
  foldl (fun l i => delete i l) (pre ++ l)
    (reverse (pruned_indices prunedirs (length pre) l))
  = pre ++ List.filter (fun d => negb (bool_decide (d ∈ prunedirs))) l.
Proof.
  revert pre. induction l as [|d l IH]; intros pre; simpl; [done|].
  replace (S (length pre)) with (length (pre ++ [d]))
    by (rewrite length_app; simpl; lia).
  replace (pre ++ d :: l) with ((pre ++ [d]) ++ l) by by rewrite <- app_assoc.
  destruct (bool_decide (d ∈ prunedirs)); simpl.
  - rewrite reverse_cons, foldl_app, IH. simpl.
    rewrite <- app_assoc. simpl. apply delete_middle.
  - rewrite IH. by rewrite <- app_assoc.
Qed.

(** The two loops of [_prune_directory_list] amount to dropping the listed
    names. *)
Lemma prune_directory_list_filter (dirnames prunedirs : list string) :
  _prune_directory_list dirnames (Some prunedirs)
  = List.filter (fun d => negb (bool_decide (d ∈ prunedirs))) dirnames.
Proof.
  unfold _prune_directory_list.
  pose proof (prune_indices_from prunedirs [] dirnames []) as Hidx.
  simpl in Hidx. rewrite Hidx.
  apply (delete_pruned_from prunedirs [] dirnames).
Qed.

Lemma _ignore_pathname_nothing w x :
  _ignore_pathname E w x (fun _ => false) false = false.
Proof. reflexivity. Qed.

Lemma walk_loop_keeps_all w dirs files walk acc :
  foldl (fun all_pathnames '(prefix, dirnames, filenames) =>
           all_pathnames ++
           List.filter (fun x => negb (_ignore_pathname E w x (fun _ => false) false))
             ((OsPath.join prefix <$> List.filter (fun _ => dirs) dirnames) ++
              (OsPath.join prefix <$> List.filter (fun _ => files) filenames)))
        acc walk
  = acc ++ concat ((fun '(prefix, dirnames, filenames) =>
             (if dirs then OsPath.join prefix <$> dirnames else []) ++
             (if files then OsPath.join prefix <$> filenames else []))
          <$> walk).
Proof.
  revert acc.
  induction walk as [|[[prefix dirnames] filenames] walk IH]; intros acc; simpl.
  - by rewrite app_nil_r.
  - rewrite IH, <- app_assoc. do 2 f_equal.
    rewrite !filter_const. by destruct dirs, files.
Qed.

Lemma list_filesystem_tree_None w root dirs files invert prunedirs sort :
  _list_filesystem_tree E w root dirs files None invert prunedirs sort
    = (if sort then list_sort (visited_pathnames E w root dirs files prunedirs)
       else visited_pathnames E w root dirs files prunedirs).
Proof.
  unfold _list_filesystem_tree, visited_pathnames.
  by rewrite walk_loop_keeps_all.
Qed.

(** C10. Without an ignore-file the inversion flag is without effect: the
    walker returns every path it visits (sorted when asked to), whatever
    [invert] was passed; nothing is dropped. *)
Theorem list_filesystem_tree_without_ignorefile
    (w : W E) (root : string) (dirs files invert : bool)
    (prunedirs : option (list string)) (sort : bool) :
  _list_filesystem_tree E w root dirs files None invert prunedirs sort
    = (if sort then list_sort (visited_pathnames E w root dirs files prunedirs)
       else visited_pathnames E w root dirs files prunedirs)
  /\ _list_filesystem_tree E w root dirs files None invert prunedirs sort
       ≡ₚ visited_pathnames E w root dirs files prunedirs
  /\ _list_filesystem_tree E w root dirs files None invert prunedirs sort
       = _list_filesystem_tree E w root dirs files None false prunedirs sort.
Proof.
  split; [apply list_filesystem_tree_None|]. split.
  - rewrite list_filesystem_tree_None.
    destruct sort; [apply list_sort_perm|done].
  - by rewrite !list_filesystem_tree_None.
Qed.

(** ** The adapter: operations that need a real repository *)

(** Committing, the metadata directory, the remote URL, intent-to-add and
    [git_path] refuse to work without git, and go to the backend with it. *)
Lemma real_vcs_only_operations (root : option string) (cp : option snapshot)
    (name git_root repo : string) (st : State E) :
  let fs := {| without_git := true; root := root; _diff_checkpoint := cp |} in
  let real := {| without_git := false; root := root; _diff_checkpoint := cp |} in
  (commit E fs repo st = (Raise NotImplementedError, st)
   /\ get_git_dir E fs git_root (world E st) = Raise NotImplementedError
   /\ get_remote_url E fs git_root (world E st) = Raise NotImplementedError
   /\ intent_to_add_files E fs st = (Raise NotImplementedError, st)
   /\ git_path E fs name repo (world E st) = Raise NotImplementedError)
  /\ (fst (commit E real repo st) = Ok (fst (git_commit E repo (world E st)))
      /\ get_git_dir E real git_root (world E st) = Ok (git_get_git_dir E git_root (world E st))
      /\ get_remote_url E real git_root (world E st)
         = Ok (git_get_remote_url E git_root (world E st))
      /\ fst (intent_to_add_files E real st)
         = Ok (fst (git_intent_to_add_files E (world E st)))
      /\ git_path E real name repo (world E st) = Ok (git_git_path E name repo (world E st))).
Proof.
  simpl. repeat split; try reflexivity.
  - unfold commit, act_with; simpl. by destruct (git_commit E repo (world E st)).
  - unfold intent_to_add_files, act_with; simpl.
    by destruct (git_intent_to_add_files E (world E st)).
Qed.

(** C2 (the code departs from it). [head_rev] tests the mode the wrong way
    round: without git it goes to the backend and raises nothing, with git it
    raises [NotImplementedError]. *)
Theorem head_rev_mode_test_inverted (root : option string) (cp : option snapshot)
    (remote : string) (w : W E) :
  head_rev E {| without_git := true; root := root; _diff_checkpoint := cp |} remote w
    = Ok (git_head_rev E remote w)
  /\ head_rev E {| without_git := false; root := root; _diff_checkpoint := cp |} remote w
    = Raise NotImplementedError.
Proof. split; reflexivity. Qed.

(** ** The adapter without git: listing and diffing *)

Lemma call_with_ignoredirs_raises (w : W E) (root : string) (a b : pyval) :
  call_list_filesystem_tree E w [VStr root] [("ignorefile", a); ("ignoredirs", b)]
  = Raise (TypeError "got an unexpected keyword argument 'ignoredirs'").
Proof. reflexivity. Qed.

(** C3 (the code departs from it). Without git, [get_all_files] passes the
    keyword [ignoredirs], which [_list_filesystem_tree] does not have: the
    call raises [TypeError] for every root and every tree, and no listing is
    returned. *)
Theorem get_all_files_without_git_raises (root : string) (cp : option snapshot)
    (w : W E) :
  get_all_files E {| without_git := true; root := Some root; _diff_checkpoint := cp |} w
  = Raise (TypeError "got an unexpected keyword argument 'ignoredirs'").
Proof. unfold get_all_files; simpl. apply call_with_ignoredirs_raises. Qed.

Lemma get_all_files_without_git_not_ok (self : GitAdapter) (w : W E) :
  without_git self = true -> is_ok (get_all_files E self w) = false.
Proof.
  intros Hm. unfold get_all_files. rewrite Hm.
  destruct (root self); [|done]. by rewrite call_with_ignoredirs_raises.
Qed.

Lemma get_diff_without_git_not_ok (self : GitAdapter) (w : W E) :
  without_git self = true -> is_ok (get_diff E self w) = false.
Proof.
  intros Hm. unfold get_diff. rewrite Hm.
  pose proof (get_all_files_without_git_not_ok self w Hm) as H.
  by destruct (get_all_files E self w).
Qed.

(** *** [_diff_dicts] *)

Lemma diff_dicts_first_loop (dict2 : gmap string string)
    (l : list (string * string)) (rem chg : list string) :
  let out :=
    foldl (fun '(removed_keys, changed_keys) '(key, value) =>
             match dict2 !! key with
             | Some value2 =>
                 if bool_decide (value ≠ value2)
                 then (removed_keys, changed_keys ++ [key])
                 else (removed_keys, changed_keys)
             | None => (removed_keys ++ [key], changed_keys)
             end) (rem, chg) l in
  (forall k, k ∈ fst out <-> k ∈ rem \/ (exists v, (k, v) ∈ l /\ dict2 !! k = None))
  /\ (forall k, k ∈ snd out <->
         k ∈ chg \/ (exists v v2, (k, v) ∈ l /\ dict2 !! k = Some v2 /\ v ≠ v2)).
Proof.
  revert rem chg. induction l as [|[key value] l IH]; intros rem chg; simpl.
  - split; intros k; split; [tauto| |tauto|].
    + intros [?|(v & Hin & _)]; [done|]. by apply elem_of_nil in Hin.
    + intros [?|(v & v2 & Hin & _)]; [done|]. by apply elem_of_nil in Hin.
  - destruct (dict2 !! key) as [value2|] eqn:Hk.
    + case_bool_decide as Hne.
      * destruct (IH rem (chg ++ [key])) as [IH1 IH2]. split; intros k.
        -- rewrite IH1. split; (intros [?|(v & Hin & Hn)]; [by left|right]).
           ++ exists v. split; [by right|done].
           ++ apply elem_of_cons in Hin as [[= -> ->]|Hin]; [congruence|eauto].
        -- rewrite IH2, elem_of_app, list_elem_of_singleton. split.
           ++ intros [[?| ->]|(v & v2 & Hin & ?)]; [by left| |].
              ** right. exists value, value2. split; [by left|done].
              ** right. exists v, v2. split; [by right|done].
           ++ intros [?|(v & v2 & Hin & Hs & Hd)]; [by left; left|].
              apply elem_of_cons in Hin as [[= -> ->]|Hin]; [by left; right|].
              right. eauto.
      * destruct (IH rem chg) as [IH1 IH2]. split; intros k.
        -- rewrite IH1. split; (intros [?|(v & Hin & Hn)]; [by left|right]).
           ++ exists v. split; [by right|done].
           ++ apply elem_of_cons in Hin as [[= -> ->]|Hin]; [congruence|eauto].
        -- rewrite IH2. split; (intros [?|(v & v2 & Hin & Hs & Hd)]; [by left|right]).
           ++ exists v, v2. split; [by right|done].
           ++ apply elem_of_cons in Hin as [[= -> ->]|Hin]; [|eauto].
              rewrite Hk in Hs. injection Hs as <-.
              exfalso. apply Hd. by apply dec_stable.
    + destruct (IH (rem ++ [key]) chg) as [IH1 IH2]. split; intros k.
      * rewrite IH1, elem_of_app, list_elem_of_singleton. split.
        -- intros [[?| ->]|(v & Hin & ?)]; [by left| |].
           ++ right. exists value. split; [by left|done].
           ++ right. exists v. split; [by right|done].
        -- intros [?|(v & Hin & Hn)]; [by left; left|].
           apply elem_of_cons in Hin as [[= -> ->]|Hin]; [by left; right|].
           right. eauto.
      * rewrite IH2. split; (intros [?|(v & v2 & Hin & Hs & Hd)]; [by left|right]).
        -- exists v, v2. split; [by right|done].
        -- apply elem_of_cons in Hin as [[= -> ->]|Hin]; [congruence|eauto].
Qed.

Lemma diff_dicts_second_loop (dict1 : gmap string string) (l acc : list string) :
  forall k,
    k ∈ foldl (fun added_keys key =>
                 if bool_decide (key ∉ dom dict1) then added_keys ++ [key]
                 else added_keys) acc l
    <-> k ∈ acc \/ (k ∈ l /\ dict1 !! k = None).
Proof.
  revert acc. induction l as [|key l IH]; intros acc k; simpl.
  - split; [tauto|]. intros [?|[Hin _]]; [done|]. by apply elem_of_nil in Hin.
  - rewrite IH. case_bool_decide as Hd.
    + apply not_elem_of_dom in Hd.
      rewrite elem_of_app, list_elem_of_singleton, elem_of_cons. split.
      * intros [[?| ->]|[? ?]]; [by left|right|right]; split; auto.
      * intros [?|[[->|?] ?]]; [by left; left|by left; right|right]; auto.
    + rewrite elem_of_cons. split.
      { intros [?|[? ?]]; [by left|right]; auto. }
      intros [?|[[->|?] Hn]]; [by left| |by right].
      apply elem_of_dom in Hd as [v Hv]. congruence.
Qed.

(** The three lists of [_diff_dicts] hold exactly the keys that were added,
    removed and changed; no key is in two of them. *)
Theorem diff_dicts_classifies (dict1 dict2 : gmap string string) (k : string) :
  (k ∈ added (_diff_dicts dict1 dict2) <-> dict1 !! k = None /\ is_Some (dict2 !! k))
  /\ (k ∈ removed (_diff_dicts dict1 dict2) <-> is_Some (dict1 !! k) /\ dict2 !! k = None)
  /\ (k ∈ changed (_diff_dicts dict1 dict2) <->
        exists v1 v2, dict1 !! k = Some v1 /\ dict2 !! k = Some v2 /\ v1 ≠ v2).
Proof.
  unfold _diff_dicts.
  pose proof (diff_dicts_first_loop dict2 (map_to_list dict1) [] []) as Hfirst.
  simpl in Hfirst.
  destruct (foldl _ ([], []) (map_to_list dict1)) as [rem chg].
  destruct Hfirst as [Hrem Hchg]. simpl in *.
  split; [|split].
  - rewrite diff_dicts_second_loop, list_elem_of_fmap. split.
    + intros [Hin|[([k' v] & -> & Hin) Hn]]; [by apply elem_of_nil in Hin|].
      apply elem_of_map_to_list in Hin. simpl in *. eauto.
    + intros [Hn [v Hv]]. right. split; [|done].
      exists (k, v). split; [done|]. by apply elem_of_map_to_list.
  - rewrite Hrem. split.
    + intros [Hin|(v & Hin & Hn)]; [by apply elem_of_nil in Hin|].
      apply elem_of_map_to_list in Hin. eauto.
    + intros [[v Hv] Hn]. right. exists v. by rewrite elem_of_map_to_list.
  - rewrite Hchg. split.
    + intros [Hin|(v & v2 & Hin & Hs & Hd)]; [by apply elem_of_nil in Hin|].
      apply elem_of_map_to_list in Hin. eauto.
    + intros (v1 & v2 & H1 & H2 & Hd). right. exists v1, v2.
      by rewrite elem_of_map_to_list.
Qed.

(** C6 (the code departs from it). Without git no snapshot is ever obtained:
    [get_diff] goes through [get_all_files], whose call raises, so
    [has_checkpointed_diff] raises instead of reporting, whatever the
    checkpoint and the tree are; [set_diff_checkpoint] stops the same way. *)
Theorem has_checkpointed_diff_without_git_raises (root : option string)
    (cp : option snapshot) (args : list string) (st : State E) :
  let self := {| without_git := true; root := root; _diff_checkpoint := cp |} in
  is_ok (has_checkpointed_diff E self args (world E st)) = false
  /\ is_ok (get_diff E self (world E st)) = false
  /\ is_ok (fst (set_diff_checkpoint E self st)) = false.
Proof.
  intros self.
  pose proof (get_diff_without_git_not_ok self (world E st) eq_refl) as Hd.
  split; [|split; [exact Hd|]].
  - unfold has_checkpointed_diff, get_checkpointed_diff; simpl.
    destruct cp; [|done]. fold self.
    by destruct (get_diff E self (world E st)).
  - unfold set_diff_checkpoint, mbind, M_bind, bind, query; simpl. fold self.
    by destruct (get_diff E self (world E st)).
Qed.

(** ** The classifier *)

Ltac unfold_M :=
  unfold mbind, M_bind, mret, M_ret, bind, ret, raise, query, emit, act,
    act_with, when, get_environ, set_environ in *; simpl in *.

Lemma oracle_calls_app (tr1 tr2 : list event) :
  oracle_calls (tr1 ++ tr2) = oracle_calls tr1 ++ oracle_calls tr2.
Proof. apply omap_app. Qed.

Lemma hook_runs_app (tr1 tr2 : list event) :
  hook_runs (tr1 ++ tr2) = hook_runs tr1 ++ hook_runs tr2.
Proof. apply omap_app. Qed.

Lemma cache_inv_fresh (fs : list string) :
  cache_inv {| filenames := fs; _types_cache := ∅ |} [].
Proof.
  split; [constructor|]. intros f. simpl. rewrite lookup_empty. split.
  - intros H. by apply elem_of_nil in H.
  - by intros [? ?].
Qed.

Lemma types_for_file_spec (self : Classifier) (filename : string) (st : State E) :
  exists tags self' evs,
    _types_for_file E self filename st
      = (Ok (tags, self'),
         {| world := world E st; environ := environ E st;
            trace := trace E st ++ evs |})
    /\ hook_runs evs = []
    /\ (forall calls, cache_inv self calls -> cache_inv self' (calls ++ oracle_calls evs))
    /\ _types_cache self ⊆ _types_cache self'
    /\ _types_cache self' !! filename = Some tags
    /\ filenames self' = filenames self.
Proof.
  unfold _types_for_file.
  destruct (_types_cache self !! filename) as [tags|] eqn:Hc.
  - exists tags, self, []. unfold_M. rewrite !app_nil_r.
    destruct st; simpl. split; [done|]. split; [done|].
    split; [intros calls Hinv; by rewrite app_nil_r|done].
  - exists (tags_from_path E (world E st) filename), 
      {| filenames := filenames self;
         _types_cache := <[filename := tags_from_path E (world E st) filename]>
                           (_types_cache self) |},
      [TagsFromPath filename].
    unfold_M. split; [done|]. split; [done|]. split; [|split; [|split]].
    + intros calls [Hnd Hdom]. split.
      * apply NoDup_app. split; [done|]. split; [|apply NoDup_singleton].
        intros f Hf ->%list_elem_of_singleton.
        apply Hdom in Hf as [? ?]. congruence.
      * intros f. rewrite elem_of_app, list_elem_of_singleton, Hdom. simpl.
        destruct (decide (filename = f)) as [->|Hne].
        -- rewrite lookup_insert_eq. split; [eauto|by right].
        -- rewrite lookup_insert_ne by done. split; [|by left].
           intros [?|?]; [done|congruence].
    + by apply insert_subseteq.
    + by rewrite lookup_insert_eq.
    + done.
Qed.

Lemma lookups_spec (steps : list (step E)) (self : Classifier)
    (calls : list string) (st : State E) :
  cache_inv self calls ->
  exists answers self' st' evs,
    lookups E self steps st = (Ok (answers, self'), st')
    /\ trace E st' = trace E st ++ evs
    /\ cache_inv self' (calls ++ oracle_calls evs)
    /\ _types_cache self ⊆ _types_cache self'
    /\ (forall f t, (f, t) ∈ answers -> _types_cache self' !! f = Some t).
Proof.
  revert self calls st.
  induction steps as [|[filename|g] steps IH]; intros self calls st Hinv.
  - exists [], self, st, []. simpl. unfold_M. rewrite !app_nil_r.
    repeat split; try done; try apply Hinv.
    intros f t H. by apply elem_of_nil in H.
  - destruct (types_for_file_spec self filename st)
      as (tags & self1 & evs1 & Hrun & _ & Hinv1 & Hsub1 & Hhit & _).
    destruct (IH self1 _ {| world := world E st; environ := environ E st;
                            trace := trace E st ++ evs1 |} (Hinv1 _ Hinv))
      as (answers & self2 & st2 & evs2 & Hrest & Htr & Hinv2 & Hsub2 & Hans).
    exists ((filename, tags) :: answers), self2, st2, (evs1 ++ evs2).
    simpl. unfold mbind, M_bind, bind. rewrite Hrun. simpl.
    unfold mbind, M_bind, bind. rewrite Hrest. simpl.
    split; [done|]. split; [by rewrite Htr, app_assoc|].
    split; [by rewrite oracle_calls_app, app_assoc|].
    split; [by etransitivity|].
    intros f t [[= -> ->]|Hin]%elem_of_cons; [|by apply Hans].
    by eapply lookup_weaken.
  - destruct (IH self calls {| world := g (world E st); environ := environ E st;
                               trace := trace E st |} Hinv)
      as (answers & self2 & st2 & evs2 & Hrest & Htr & Hinv2 & Hsub2 & Hans).
    exists answers, self2, st2, evs2.
    simpl. unfold mbind, M_bind, bind, act. simpl. by rewrite Hrest.
Qed.

Lemma by_types_loop_spec (names : list string) (self : Classifier)
    (types exclude_types : gset string) (acc : list string) (st : State E) :
  exists out self' evs,
    by_types_loop E self names types exclude_types acc st
      = (Ok (out, self'),
         {| world := world E st; environ := environ E st;
            trace := trace E st ++ evs |})
    /\ hook_runs evs = []
    /\ (forall calls, cache_inv self calls -> cache_inv self' (calls ++ oracle_calls evs))
    /\ filenames self' = filenames self.
Proof.
  revert self acc st. induction names as [|filename names IH]; intros self acc st.
  - exists acc, self, []. simpl. unfold_M. rewrite app_nil_r. destruct st; simpl.
    split; [done|]. split; [done|].
    split; [intros calls Hinv; by rewrite app_nil_r|done].
  - destruct (types_for_file_spec self filename st)
      as (tags & self1 & evs1 & Hrun & Hh1 & Hinv1 & _ & _ & Hf1).
    destruct (IH self1
                 (if bool_decide (types ⊆ tags) && bool_decide (tags ∩ exclude_types = ∅)
                  then acc ++ [filename] else acc)
                 {| world := world E st; environ := environ E st;
                    trace := trace E st ++ evs1 |})
      as (out & self2 & evs2 & Hrest & Hh2 & Hinv2 & Hf2).
    exists out, self2, (evs1 ++ evs2).
    simpl. unfold mbind, M_bind, bind. rewrite Hrun. simpl. rewrite Hrest. simpl.
    rewrite app_assoc. split; [done|].
    split; [by rewrite hook_runs_app, Hh1, Hh2|].
    split; [|congruence].
    intros calls Hinv. rewrite oracle_calls_app, app_assoc. auto.
Qed.

Lemma filenames_for_hook_spec (self : Classifier) (hook : Hook) (st : State E) :
  exists names self' evs,
    filenames_for_hook E self hook st
      = (Ok (names, self'),
         {| world := world E st; environ := environ E st;
            trace := trace E st ++ evs |})
    /\ hook_runs evs = []
    /\ (forall calls, cache_inv self calls -> cache_inv self' (calls ++ oracle_calls evs))
    /\ filenames self' = filenames self.
Proof. unfold filenames_for_hook, by_types. apply by_types_loop_spec. Qed.

(** C9. On one classifier, whatever the lookups and whatever happens to the
    files between them, the lookups of one filename all give the same tag
    set, and the oracle is asked about a filename at most once. *)
Theorem tag_lookup_memoized (filenames0 : list string) (steps : list (step E))
    (st : State E) :
  exists self0 answers self st' evs,
    Classifier_init E filenames0 st = (Ok self0, st)
    /\ lookups E self0 steps st = (Ok (answers, self), st')
    /\ trace E st' = trace E st ++ evs
    /\ (forall f t1 t2, (f, t1) ∈ answers -> (f, t2) ∈ answers -> t1 = t2)
    /\ NoDup (oracle_calls evs).
Proof.
  destruct (lookups_spec steps
              {| filenames := List.filter (fun f => lexists E (world E st) f) filenames0;
                 _types_cache := ∅ |} [] st (cache_inv_fresh _))
    as (answers & self & st' & evs & Hrun & Htr & [Hnd _] & _ & Hans).
  eexists _, answers, self, st', evs.
  split; [reflexivity|]. split; [exact Hrun|]. split; [exact Htr|].
  split; [|exact Hnd].
  intros f t1 t2 H1%Hans H2%Hans. congruence.
Qed.

(** ** One hook *)


(** C7. A hook whose id or alias is in the skip set read from [SKIP] is
    reported as skipped, counts as a success, and its [run] is not called. *)
Theorem skipped_hook_is_not_run (git_shim : GitAdapter) (self : Classifier)
    (hook : Hook) (args : Args) (environ : gmap string string) (cols : Z)
    (st : State E) :
  hook_id hook ∈ _get_skips environ \/ hook_alias hook ∈ _get_skips environ ->
  exists self' st',
    _run_single_hook E git_shim self hook args (_get_skips environ) cols st
      = (Ok (0, self'), st')
    /\ last (trace E st')
       = Some (Write (get_hook_message E
           {| msg_start := _hook_msg_start hook (args_verbose args);
              msg_postfix := ""; msg_end_msg := Some SKIPPED; msg_end_len := 0;
              msg_end_color := Some (YELLOW E);
              msg_use_color := Some (args_color args); msg_cols := cols |}))
    /\ hook_runs (trace E st') = hook_runs (trace E st)
    /\ world E st' = world E st.
Proof.
  intros Hskip.
  destruct (filenames_for_hook_spec self hook st)
    as (names & self1 & evs & Hnames & Hruns & _ & _).
  assert (Hb : bool_decide (hook_id hook ∈ _get_skips environ)
               || bool_decide (hook_alias hook ∈ _get_skips environ) = true).
  { apply orb_true_iff. destruct Hskip; [left|right]; by apply bool_decide_eq_true. }
  unfold _run_single_hook, mbind, M_bind, bind. rewrite Hnames. simpl.
  rewrite Hb.
  destruct (String.eqb (hook_language hook) "pcre"); unfold_M;
    eexists _, _; (split; [reflexivity|]); simpl;
    rewrite ?last_snoc, ?hook_runs_app, ?Hruns; simpl;
    rewrite ?app_nil_r; done.
Qed.

(** C1. A hook that is invoked and around whose run the two diff snapshots
    differ is recorded as failed, whatever its own exit code was. *)
Theorem modifying_hook_fails (git_shim : GitAdapter) (self : Classifier)
    (hook : Hook) (args : Args) (skips : gset string) (cols : Z) (st : State E)
    (names : list string) (self1 : Classifier) (st1 : State E)
    (diff_before diff_after : snapshot) (retcode : Z) (stdout stderr : string)
    (w2 : W E) :
  filenames_for_hook E self hook st = (Ok (names, self1), st1) ->
  hook_id hook ∉ skips ->
  hook_alias hook ∉ skips ->
  names ≠ [] \/ hook_always_run hook = true ->
  get_diff E git_shim (world E st1) = Ok diff_before ->
  hook_run E hook (if hook_pass_filenames hook then names else []) (world E st1)
    = (retcode, stdout, stderr, w2) ->
  get_diff E git_shim w2 = Ok diff_after ->
  diff_before ≠ diff_after ->
  exists st',
    _run_single_hook E git_shim self hook args skips cols st = (Ok (1, self1), st')
    /\ hook_runs (trace E st')
       = hook_runs (trace E st1)
         ++ [(hook, if hook_pass_filenames hook then names else [])].
Proof.
  intros Hnames Hid Halias Hfiles Hbefore Hrun Hafter Hdiff.
  assert (Hb : bool_decide (hook_id hook ∈ skips)
               || bool_decide (hook_alias hook ∈ skips) = false).
  { apply orb_false_iff. split; by apply bool_decide_eq_false. }
  assert (Hn : negb (list_truthy names) && negb (hook_always_run hook) = false).
  { destruct Hfiles as [Hne| ->]; [|by rewrite andb_false_r].
    destruct names; [done|reflexivity]. }
  assert (Hm : bool_decide (diff_before ≠ diff_after) = true)
    by by apply bool_decide_eq_true.
  unfold _run_single_hook, mbind, M_bind, bind. rewrite Hnames. simpl.
  rewrite Hb, Hn.
  destruct (String.eqb (hook_language hook) "pcre"); unfold_M;
    rewrite Hbefore; unfold call_hook_run, mbind, M_bind, bind, emit, act_with;
    simpl; rewrite Hrun; simpl; rewrite Hafter, Hm; simpl;
    unfold write_stripped, when, emit, M_ret, ret;
    destruct (str_truthy stdout || str_truthy stderr);
    destruct (str_truthy (Str.strip_bytes stdout));
    destruct (str_truthy (Str.strip_bytes stderr)); simpl;
    (eexists; split; [reflexivity|]); simpl;
    rewrite !hook_runs_app; simpl; rewrite ?app_nil_r; done.
Qed.

(** ** The run *)

(** C5. The candidate files are those of the first applicable source in the
    order: origin/source range, commit-message file, explicit files, all
    files, conflicted files, staged files. *)
Theorem all_filenames_priority (git_shim : GitAdapter) (args : Args) (w : W E) :
  _all_filenames E git_shim args w = spec_candidate_files E git_shim args w.
Proof.
  unfold _all_filenames, spec_candidate_files, message_stages. simpl.
  destruct (opt_truthy (args_origin args) && opt_truthy (args_source args)); [done|].
  assert (Hst : bool_decide (args_hook_stage args ∈ ["prepare-commit-msg"; "commit-msg"])
                = bool_decide (args_hook_stage args = "prepare-commit-msg")
                  || bool_decide (args_hook_stage args = "commit-msg")).
  { apply eq_true_iff_eq.
    rewrite orb_true_iff, !bool_decide_eq_true, !elem_of_cons, elem_of_nil. tauto. }
  rewrite Hst.
  destruct (bool_decide (args_hook_stage args = "prepare-commit-msg")
            || bool_decide (args_hook_stage args = "commit-msg")); [done|].
  destruct (args_files args) as [|f fs] eqn:Hf; simpl; [|by rewrite Hf].
  destruct (args_all_files args); [done|].
  by destruct (is_in_merge_conflict E git_shim w).
Qed.

Lemma run_hooks_loop_app (git_shim : GitAdapter) (fail_fast : bool) (args : Args)
    (skips : gset string) (cols : Z) (pre rest : list Hook) (retval : Z)
    (self self1 : Classifier) (st st1 : State E) :
  _run_hooks_loop E git_shim fail_fast args skips cols pre retval self st
    = (Ok (0, self1), st1) ->
  _run_hooks_loop E git_shim fail_fast args skips cols (pre ++ rest) retval self st
    = _run_hooks_loop E git_shim fail_fast args skips cols rest 0 self1 st1.
Proof.
  revert retval self st.
  induction pre as [|hook pre IH]; intros retval self st; simpl.
  - unfold_M. by intros [= -> -> ->].
  - unfold mbind, M_bind, bind.
    destruct (_run_single_hook E git_shim self hook args skips cols st)
      as [[[r self']|e] st']; [|done].
    simpl. destruct (int_truthy (Z.lor retval r) && fail_fast) eqn:Hbrk.
    + unfold_M. intros [= Hz -> ->]. rewrite Hz in Hbrk. by simpl in Hbrk.
    + apply IH.
Qed.

(** C8. With [fail_fast] set, once a hook has failed the loop is over: the
    run ends in the state the failing hook left, so no later hook is
    invoked. *)
Theorem fail_fast_stops_after_failure (git_shim : GitAdapter) (args : Args)
    (skips : gset string) (cols : Z) (pre post : list Hook) (hook : Hook)
    (self self1 self2 : Classifier) (st st1 st2 : State E) (r : Z) :
  _run_hooks_loop E git_shim true args skips cols pre 0 self st
    = (Ok (0, self1), st1) ->
  _run_single_hook E git_shim self1 hook args skips cols st1 = (Ok (r, self2), st2) ->
  r ≠ 0 ->
  _run_hooks_loop E git_shim true args skips cols (pre ++ hook :: post) 0 self st
    = (Ok (r, self2), st2).
Proof.
  intros Hpre Hhook Hr.
  rewrite (run_hooks_loop_app _ _ _ _ _ _ _ _ _ _ _ _ Hpre). simpl.
  unfold mbind, M_bind, bind. rewrite Hhook. simpl.
  rewrite Z.lor_0_l. unfold int_truthy.
  destruct (Z.eqb_spec r 0) as [->|_]; [done|]. reflexivity.
Qed.

(** C4. A run that starts with unmerged paths, with exactly one of origin
    and source, or with an unstaged configuration and neither explicit files
    nor all-files, returns 1 having logged one error and invoked no hook. *)
Theorem preflight_violation_aborts (config_file : string) (store : Store)
    (args : Args) (st : State E) :
  let git_shim := GitAdapter_init (args_without_git args) (args_root args) in
  has_unmerged_paths E git_shim (world E st) = true
  \/ xorb (opt_truthy (args_origin args)) (opt_truthy (args_source args)) = true
  \/ (has_unstaged_config E git_shim config_file (world E st) = true
      /\ args_files args = [] /\ args_all_files args = false) ->
  exists msg,
    run E config_file store args st
      = (Ok 1, {| world := world E st; environ := environ E st;
                  trace := trace E st ++ [LogError msg] |})
    /\ hook_runs (trace E st ++ [LogError msg]) = hook_runs (trace E st).
Proof.
  intros git_shim Hviol. unfold run. fold git_shim. unfold_M.
  destruct (has_unmerged_paths E git_shim (world E st)) eqn:Hu.
  { eexists. split; [reflexivity|]. by rewrite hook_runs_app, app_nil_r. }
  rewrite xorb_comm.
  destruct (xorb (opt_truthy (args_origin args)) (opt_truthy (args_source args))) eqn:Hx.
  { eexists. split; [reflexivity|]. by rewrite hook_runs_app, app_nil_r. }
  destruct Hviol as [?|[?|(Hc & Hf & Ha)]]; [done|done|].
  rewrite Hc, Hf, Ha. simpl.
  eexists. split; [reflexivity|]. by rewrite hook_runs_app, app_nil_r.
Qed.

(** ** Within one run every file is classified at most once *)

Lemma quiet_ret {A} (a : A) (Q : A -> Prop) : Q a -> quiet E (ret E a) Q.
Proof.
  intros HQ st. exists []. unfold_M. rewrite app_nil_r.
  split; [done|]. split; [done|]. by intros ? [= <-].
Qed.

Lemma quiet_raise {A} (e : exn) (Q : A -> Prop) : quiet E (raise E e) Q.
Proof. intros st. exists []. unfold_M. by rewrite app_nil_r. Qed.

Lemma quiet_query {A} (f : W E -> result A) : quiet E (query E f) (fun _ => True).
Proof. intros st. exists []. unfold_M. by rewrite app_nil_r. Qed.

Lemma quiet_act (f : W E -> W E) : quiet E (act E f) (fun _ => True).
Proof. intros st. exists []. unfold_M. by rewrite app_nil_r. Qed.

Lemma quiet_act_with {A} (f : W E -> A * W E) : quiet E (act_with E f) (fun _ => True).
Proof.
  intros st. exists []. unfold_M. destruct (f (world E st)). simpl.
  by rewrite app_nil_r.
Qed.

Lemma quiet_get_environ : quiet E (get_environ E) (fun _ => True).
Proof. intros st. exists []. unfold_M. by rewrite app_nil_r. Qed.

Lemma quiet_set_environ (k v : string) : quiet E (set_environ E k v) (fun _ => True).
Proof. intros st. exists []. unfold_M. by rewrite app_nil_r. Qed.

Lemma quiet_emit (ev : event) :
  oracle_calls [ev] = [] -> quiet E (emit E ev) (fun _ => True).
Proof. intros Hev st. exists [ev]. by unfold_M. Qed.

Lemma quiet_bind {A B} (c : M E A) (k : A -> M E B) (P : A -> Prop) (Q : B -> Prop) :
  quiet E c P -> (forall a, P a -> quiet E (k a) Q) -> quiet E (bind E c k) Q.
Proof.
  intros Hc Hk st. destruct (Hc st) as (evs1 & Htr1 & Ho1 & HP).
  unfold bind. destruct (c st) as [[a|e] st1]; simpl in *.
  - destruct (Hk a (HP a eq_refl) st1) as (evs2 & Htr2 & Ho2 & HQ).
    exists (evs1 ++ evs2). rewrite Htr2, Htr1, app_assoc, oracle_calls_app, Ho1, Ho2.
    done.
  - exists evs1. done.
Qed.

Lemma quiet_weaken {A} (c : M E A) (P Q : A -> Prop) :
  quiet E c P -> (forall a, P a -> Q a) -> quiet E c Q.
Proof.
  intros Hc HPQ st. destruct (Hc st) as (evs & Htr & Ho & HP).
  exists evs. split; [done|]. split; [done|]. intros a Ha. auto.
Qed.

Lemma quiet_when (b : bool) (c : M E unit) :
  quiet E c (fun _ => True) -> quiet E (when E b c) (fun _ => True).
Proof. intros Hc. unfold when. destruct b; [done|]. by apply quiet_ret. Qed.

Lemma quiet_with_ctx {A} (ctx : ContextManager (W E)) (body : M E A) (Q : A -> Prop) :
  quiet E body Q -> quiet E (with_ctx E ctx body) Q.
Proof.
  intros Hb st. unfold with_ctx. unfold_M.
  destruct (Hb {| world := ctx_enter ctx (world E st); environ := environ E st;
                  trace := trace E st |}) as (evs & Htr & Ho & HQ).
  destruct (body _) as [r st']. simpl in *. exists evs. done.
Qed.

(** Everything below the tag lookups is quiet. *)
Ltac quiet_step :=
  unfold mbind, M_bind, mret, M_ret;
  match goal with
  | |- quiet _ (bind _ _ _) _ => eapply quiet_bind; [|intros ? _]
  | |- quiet _ (ret _ _) _ => apply quiet_ret; try done
  | |- quiet _ (raise _ _) _ => apply quiet_raise
  | |- quiet _ (when _ _ _) _ => apply quiet_when
  | |- quiet _ (emit _ _) _ => apply quiet_emit; reflexivity
  | |- quiet _ (query _ _) _ => apply quiet_query
  | |- quiet _ (act _ _) _ => apply quiet_act
  | |- quiet _ (act_with _ _) _ => apply quiet_act_with
  | |- quiet _ (get_environ _) _ => apply quiet_get_environ
  | |- quiet _ (set_environ _ _ _) _ => apply quiet_set_environ
  | |- quiet _ (if ?b then _ else _) _ => destruct b
  | |- quiet _ (match ?x with (_, _) => _ end) _ => destruct x
  | |- quiet _ (let (_, _) := ?x in _) _ => destruct x
  end.

Lemma quiet_call_hook_run (hook : Hook) (fs : list string) :
  quiet E (call_hook_run E hook fs) (fun _ => True).
Proof. unfold call_hook_run. repeat quiet_step. Qed.

Lemma quiet_write_stripped (hook : Hook) (out : string) :
  quiet E (write_stripped E hook out) (fun _ => True).
Proof. unfold write_stripped. repeat quiet_step. Qed.

Lemma quiet_print_checkpointed_diff (git_shim : GitAdapter) (color : bool) :
  quiet E (print_checkpointed_diff E git_shim color) (fun _ => True).
Proof. unfold print_checkpointed_diff. repeat quiet_step. Qed.

Lemma quiet_set_diff_checkpoint (git_shim : GitAdapter) :
  quiet E (set_diff_checkpoint E git_shim) (fun _ => True).
Proof. unfold set_diff_checkpoint. repeat quiet_step. Qed.

Lemma quiet_Classifier_init (fs : list string) :
  quiet E (Classifier_init E fs) (fun self => cache_inv self []).
Proof.
  intros st. exists []. unfold Classifier_init. simpl. rewrite app_nil_r.
  split; [done|]. split; [done|]. intros a [= <-]. apply cache_inv_fresh.
Qed.

Lemma once_bind {A B} (c : M E A) (k : A -> M E B) (calls : list string)
    (P : A -> list string -> Prop) (Q : B -> list string -> Prop) :
  once E c calls P ->
  (forall a calls', NoDup calls' -> P a calls' -> once E (k a) calls' Q) ->
  once E (bind E c k) calls Q.
Proof.
  intros Hc Hk st. destruct (Hc st) as (evs1 & Htr1 & Hnd1 & HP).
  unfold bind. destruct (c st) as [[a|e] st1]; simpl in *.
  - destruct (Hk a _ Hnd1 (HP a eq_refl) st1) as (evs2 & Htr2 & Hnd2 & HQ).
    exists (evs1 ++ evs2).
    rewrite Htr2, Htr1, oracle_calls_app, !app_assoc. done.
  - exists evs1. done.
Qed.

Lemma quiet_once {A} (c : M E A) (calls : list string) (P : A -> Prop)
    (Q : A -> list string -> Prop) :
  NoDup calls -> quiet E c P -> (forall a, P a -> Q a calls) -> once E c calls Q.
Proof.
  intros Hnd Hc HPQ st. destruct (Hc st) as (evs & Htr & Ho & HP).
  exists evs. rewrite Ho, app_nil_r. split; [done|]. split; [done|]. auto.
Qed.

Lemma once_with_ctx {A} (ctx : ContextManager (W E)) (body : M E A)
    (calls : list string) (Q : A -> list string -> Prop) :
  once E body calls Q -> once E (with_ctx E ctx body) calls Q.
Proof.
  intros Hb st. unfold with_ctx. unfold_M.
  destruct (Hb {| world := ctx_enter ctx (world E st); environ := environ E st;
                  trace := trace E st |}) as (evs & Htr & Hnd & HQ).
  destruct (body _) as [r st']. simpl in *. exists evs. done.
Qed.

Lemma filenames_for_hook_once (self : Classifier) (hook : Hook) (calls : list string) :
  cache_inv self calls ->
  once E (filenames_for_hook E self hook) calls (fun a calls' => cache_inv (snd a) calls').
Proof.
  intros Hinv st.
  destruct (filenames_for_hook_spec self hook st)
    as (names & self1 & evs & Hrun & _ & Hinv1 & _).
  exists evs. rewrite Hrun. simpl. split; [done|].
  split; [apply (Hinv1 _ Hinv)|]. intros a [= <-]. by apply Hinv1.
Qed.

Lemma run_single_hook_once (git_shim : GitAdapter) (self : Classifier) (hook : Hook)
    (args : Args) (skips : gset string) (cols : Z) (calls : list string) :
  cache_inv self calls ->
  once E (_run_single_hook E git_shim self hook args skips cols) calls
    (fun a calls' => cache_inv (snd a) calls').
Proof.
  intros Hinv. unfold _run_single_hook. unfold mbind at 1. unfold M_bind at 1.
  eapply once_bind; [by apply filenames_for_hook_once|].
  intros [names self1] calls' Hnd Hinv1. simpl in Hinv1.
  apply (quiet_once _ _ (fun a => snd a = self1)); [done| |by intros [r ?] [= ->]].
  repeat first [apply quiet_call_hook_run | apply quiet_write_stripped | quiet_step].
Qed.

Lemma run_hooks_loop_once (git_shim : GitAdapter) (fail_fast : bool) (args : Args)
    (skips : gset string) (cols : Z) (hooks : list Hook) (retval : Z)
    (self : Classifier) (calls : list string) :
  cache_inv self calls ->
  once E (_run_hooks_loop E git_shim fail_fast args skips cols hooks retval self) calls
    (fun _ _ => True).
Proof.
  revert retval self calls.
  induction hooks as [|hook hooks IH]; intros retval self calls Hinv; simpl.
  - apply (quiet_once _ _ (fun _ => True)); [apply Hinv| |done].
    by apply quiet_ret.
  - unfold mbind, M_bind.
    eapply once_bind; [by apply run_single_hook_once|].
    intros [r self1] calls' Hnd Hinv1. simpl in Hinv1.
    destruct (int_truthy (Z.lor retval r) && fail_fast).
    + apply (quiet_once _ _ (fun _ => True)); [done| |done]. by apply quiet_ret.
    + by apply IH.
Qed.

Lemma run_hooks_once (git_shim : GitAdapter) (config : Config E) (hooks : list Hook)
    (args : Args) :
  once E (_run_hooks E git_shim config hooks args) [] (fun _ _ => True).
Proof.
  unfold _run_hooks, mbind, M_bind.
  eapply once_bind.
  { apply (quiet_once _ _ (fun _ => True) (fun _ calls' => calls' = []));
      [constructor|apply quiet_set_diff_checkpoint|done]. }
  intros git_shim' ? _ ->. eapply once_bind.
  { apply (quiet_once _ _ (fun _ => True) (fun _ calls' => calls' = []));
      [constructor|apply quiet_get_environ|done]. }
  intros environ ? _ ->. eapply once_bind.
  { apply (quiet_once _ _ (fun _ => True) (fun _ calls' => calls' = []));
      [constructor|apply quiet_query|done]. }
  intros fs ? _ ->. eapply once_bind.
  { apply (quiet_once _ _ (fun self => cache_inv self [])
             (fun self calls' => cache_inv self calls'));
      [constructor|apply quiet_Classifier_init|done]. }
  intros self calls' Hnd Hinv. eapply once_bind; [by apply run_hooks_loop_once|].
  intros [retval ?] calls'' Hnd' _.
  apply (quiet_once _ _ (fun _ => True)); [done| |done].
  repeat first [apply quiet_print_checkpointed_diff | quiet_step].
Qed.

Lemma run_once (config_file : string) (store : Store) (args : Args) :
  once E (run E config_file store args) [] (fun _ _ => True).
Proof.
  unfold run, mbind, M_bind.
  eapply once_bind.
  { apply (quiet_once _ _ (fun _ => True) (fun _ calls' => calls' = []));
      [constructor|apply quiet_query|done]. }
  intros unmerged ? _ ->.
  destruct unmerged.
  { apply (quiet_once _ _ (fun _ => True)); [constructor| |done]. repeat quiet_step. }
  destruct (xorb _ _).
  { apply (quiet_once _ _ (fun _ => True)); [constructor| |done]. repeat quiet_step. }
  eapply once_bind.
  { apply (quiet_once _ _ (fun _ => True) (fun _ calls' => calls' = []));
      [constructor|apply quiet_query|done]. }
  intros unstaged ? _ ->.
  destruct (unstaged && _).
  { apply (quiet_once _ _ (fun _ => True)); [constructor| |done]. repeat quiet_step. }
  eapply once_bind.
  { apply (quiet_once _ _ (fun _ => True) (fun _ calls' => calls' = []));
      [constructor| |done]. repeat quiet_step. }
  intros _ ? _ ->. apply once_with_ctx. eapply once_bind.
  { apply (quiet_once _ _ (fun _ => True) (fun _ calls' => calls' = []));
      [constructor|apply quiet_query|done]. }
  intros config ? _ ->. eapply once_bind.
  { apply (quiet_once _ _ (fun _ => True) (fun _ calls' => calls' = []));
      [constructor|apply quiet_query|done]. }
  intros all ? _ ->.
  destruct (opt_truthy (args_hook args) && _).
  { apply (quiet_once _ _ (fun _ => True)); [constructor| |done]. repeat quiet_step. }
  eapply once_bind.
  { apply (quiet_once _ _ (fun _ => True) (fun _ calls' => calls' = []));
      [constructor|apply quiet_act|done]. }
  intros _ ? _ ->. apply run_hooks_once.
Qed.

(** Within one run, from the preflight to the final report, the oracle is
    asked about each file at most once. *)
Theorem run_classifies_each_file_once (config_file : string) (store : Store)
    (args : Args) (st : State E) :
  exists evs,
    trace E (snd (run E config_file store args st)) = trace E st ++ evs
    /\ NoDup (oracle_calls evs).
Proof.
  destruct (run_once config_file store args st) as (evs & Htr & Hnd & _).
  exists evs. done.
Qed.

(** * Further properties of the code *)

(** ** [git_adapter.py]: the tree walker *)

Lemma prune_as_filter (dirnames prunedirs : list string) :
  _prune_directory_list dirnames (Some prunedirs)
  = List.filter (fun d => negb (bool_decide (d ∈ prunedirs))) dirnames.
Proof.
  unfold _prune_directory_list.
  pose proof (prune_indices_from prunedirs [] dirnames []) as Hidx.
  simpl in Hidx. rewrite Hidx.
  apply (delete_pruned_from prunedirs [] dirnames).
Qed.

Lemma node_name_cut_tree prunedirs n : node_name (cut_tree prunedirs n) = node_name n.
Proof. by destruct n. Qed.

Lemma is_dir_entry_cut_tree prunedirs n :
  is_dir_entry (cut_tree prunedirs n) = is_dir_entry n.
Proof. by destruct n. Qed.

Lemma cut_tree_Dir prunedirs s es :
  cut_tree prunedirs (Dir s es) = Dir s (cut_entries prunedirs es).
Proof.
  simpl. f_equal. induction es as [|e es IH]; simpl; [done|]. by rewrite IH.
Qed.

Lemma cut_entries_cons prunedirs e l :
  cut_entries prunedirs (e :: l)
  = if is_dir_entry e && bool_decide (node_name e ∈ prunedirs)
    then cut_entries prunedirs l
    else cut_tree prunedirs e :: cut_entries prunedirs l.
Proof. reflexivity. Qed.

Lemma dirnames_cut_entries prunedirs es :
  node_name <$> List.filter is_dir_entry (cut_entries prunedirs es)
  = List.filter (fun d => negb (bool_decide (d ∈ prunedirs)))
      (node_name <$> List.filter is_dir_entry es).
Proof.
  induction es as [|e es IH]; [done|].
  rewrite cut_entries_cons. simpl.
  destruct (is_dir_entry e) eqn:Hd; simpl.
  - destruct (bool_decide (node_name e ∈ prunedirs)); simpl; [done|].
    rewrite is_dir_entry_cut_tree, Hd. simpl.
    rewrite node_name_cut_tree. f_equal. exact IH.
  - rewrite is_dir_entry_cut_tree, Hd. done.
Qed.

Lemma filenames_cut_entries prunedirs es :
  node_name <$> List.filter (fun e => negb (is_dir_entry e)) (cut_entries prunedirs es)
  = node_name <$> List.filter (fun e => negb (is_dir_entry e)) es.
Proof.
  induction es as [|e es IH]; [done|].
  rewrite cut_entries_cons. simpl.
  destruct (is_dir_entry e) eqn:Hd; simpl.
  - destruct (bool_decide (node_name e ∈ prunedirs)); simpl; [done|].
    rewrite is_dir_entry_cut_tree, Hd. done.
  - rewrite is_dir_entry_cut_tree, Hd. simpl.
    rewrite node_name_cut_tree. f_equal. exact IH.
Qed.

Lemma walk_node_Dir (mutate : list string -> list string) path s es :
  walk_node mutate path (Dir s es)
  = (path, mutate (node_name <$> List.filter is_dir_entry es),
     node_name <$> List.filter (fun e => negb (is_dir_entry e)) es)
    :: walk_entries mutate path (mutate (node_name <$> List.filter is_dir_entry es)) es.
Proof.
  simpl. f_equal.
  generalize (mutate (node_name <$> List.filter is_dir_entry es)). intros dirnames.
  induction es as [|e es IH]; simpl; [done|]. by rewrite IH.
Qed.

Lemma walk_node_cut (prunedirs : list string) (n : fsnode) (path : string) :
  walk_node (fun dirnames => _prune_directory_list dirnames (Some prunedirs)) path n
  = walk_node (fun dirnames => dirnames) path (cut_tree prunedirs n).
Proof.
  revert path. induction n as [s|s es IH|s] using fsnode_forall_ind;
    intros path; [done| |done].
  rewrite cut_tree_Dir, !walk_node_Dir.
  rewrite prune_as_filter, dirnames_cut_entries, filenames_cut_entries. f_equal.
  set (kept := List.filter (fun d => negb (bool_decide (d ∈ prunedirs)))
                 (node_name <$> List.filter is_dir_entry es)).
  assert (Hkept : forall d, d ∈ kept -> d ∉ prunedirs).
  { intros d Hd%list_elem_of_In%filter_In. destruct Hd as [_ Hd].
    apply negb_true_iff in Hd. by apply bool_decide_eq_false in Hd. }
  assert (Hself : forall e, e ∈ es -> is_dir_entry e = true ->
                            node_name e ∉ prunedirs -> node_name e ∈ kept).
  { intros e He Hd Hn. apply list_elem_of_In, filter_In. split.
    - apply list_elem_of_In, list_elem_of_fmap. exists e. split; [done|].
      by apply list_elem_of_In, filter_In; split; [apply list_elem_of_In|].
    - by apply negb_true_iff, bool_decide_eq_false. }
  clearbody kept.
  assert (Hsub : forall e, e ∈ es -> e ∈ es) by done.
  revert Hsub. generalize es at 1 3 4 as l. intros l.
  induction l as [|e l IHl]; intros Hsub; [done|].
  assert (He : e ∈ es) by (apply Hsub; left).
  rewrite cut_entries_cons. cbn [walk_entries].
  rewrite IHl by (intros e' He'; apply Hsub; by right).
  destruct (is_dir_entry e) eqn:Hd; simpl.
  - destruct (bool_decide (node_name e ∈ prunedirs)) eqn:Hp; simpl.
    + apply bool_decide_eq_true in Hp.
      rewrite bool_decide_eq_false_2; [done|].
      intros Hin. by apply Hkept in Hin.
    + apply bool_decide_eq_false in Hp.
      rewrite node_name_cut_tree.
      rewrite (bool_decide_eq_true_2 (node_name e ∈ kept)) by by apply Hself.
      f_equal. exact (proj1 (Forall_forall _ _) IH e He _).
  - rewrite node_name_cut_tree.
    destruct e; try discriminate. simpl. by destruct (bool_decide _).
Qed.

(** Pruning by name is walking the tree from which the named directories
    have been cut out: nothing in or below a pruned directory is visited. *)
Theorem os_walk_pruned_is_walk_of_cut_tree (w : W E) (root : string)
    (prunedirs : list string) :
  os_walk E w (fun dirnames => _prune_directory_list dirnames (Some prunedirs)) root
  = match scandir E w root with
    | Some entries =>
        walk_node (fun dirnames => dirnames) root (cut_tree prunedirs (Dir root entries))
    | None => []
    end.
Proof.
  unfold os_walk. destruct (scandir E w root); [|done]. apply walk_node_cut.
Qed.

Lemma walk_loop_filters (dirs files : bool) (p : string -> bool)
    (walk : list (string * list string * list string)) (acc : list string) :
  foldl (fun all_pathnames '(prefix, dirnames, filenames) =>
           all_pathnames ++
           List.filter p
             ((OsPath.join prefix <$> List.filter (fun _ => dirs) dirnames) ++
              (OsPath.join prefix <$> List.filter (fun _ => files) filenames)))
        acc walk
  = acc ++ List.filter p
      (concat ((fun '(prefix, dirnames, filenames) =>
                  (if dirs then OsPath.join prefix <$> dirnames else []) ++
                  (if files then OsPath.join prefix <$> filenames else []))
               <$> walk)).
Proof.
  revert acc.
  induction walk as [|[[prefix dirnames] filenames] walk IH]; intros acc; simpl.
  - by rewrite app_nil_r.
  - rewrite IH, <- app_assoc. f_equal.
    rewrite !filter_const, !(List.filter_app p). by destruct dirs, files.
Qed.

(** With an ignore-file, the listing is the visited paths that the file does
    not match, and with [invert] the ones it matches, each as often as
    visited; sorting changes the order only. *)
Theorem list_filesystem_tree_with_ignorefile (w : W E) (root : string)
    (dirs files : bool) (ignorefile : string) (invert : bool)
    (prunedirs : option (list string)) (sort : bool) :
  _list_filesystem_tree E w root dirs files (Some ignorefile) invert prunedirs sort
  ≡ₚ List.filter
       (fun x => Bool.eqb (parse_gitignore E w ignorefile (abspath E w x)) invert)
       (visited_pathnames E w root dirs files prunedirs).
Proof.
  unfold _list_filesystem_tree, visited_pathnames.
  rewrite walk_loop_filters. simpl.
  transitivity (List.filter
    (fun x => negb (_ignore_pathname E w x (parse_gitignore E w ignorefile) invert))
    (concat ((fun '(prefix, dirnames, filenames) =>
                (if dirs then OsPath.join prefix <$> dirnames else []) ++
                (if files then OsPath.join prefix <$> filenames else []))
             <$> os_walk E w (fun d => _prune_directory_list d prunedirs) root))).
  { destruct sort; [apply list_sort_perm|done]. }
  erewrite List.filter_ext; [reflexivity|]. intros x.
  unfold _ignore_pathname, _exclusive_or.
  by destruct invert, (parse_gitignore E w ignorefile (abspath E w x)).
Qed.

(** Asked to sort, the walker returns the same paths as without sorting, in
    ascending order. *)
Theorem list_filesystem_tree_sorted (w : W E) (root : string) (dirs files : bool)
    (ignorefile : option string) (invert : bool) (prunedirs : option (list string)) :
  Sorted (fun a b => String.leb a b = true)
    (_list_filesystem_tree E w root dirs files ignorefile invert prunedirs true)
  /\ _list_filesystem_tree E w root dirs files ignorefile invert prunedirs true
     ≡ₚ _list_filesystem_tree E w root dirs files ignorefile invert prunedirs false.
Proof.
  unfold _list_filesystem_tree.
  destruct ignorefile; simpl; (split; [apply list_sort_sorted|apply list_sort_perm]).
Qed.

(** ** [git_adapter.py]: digests and their comparison *)

Lemma hash_files_from (w : W E) (l : list string) (acc : gmap string string)
    (f : string) :
  foldl (fun digests filename =>
           <[filename := sha384_hexdigest E (read_file E w filename)]> digests)
        acc l !! f
  = if bool_decide (f ∈ l) then Some (sha384_hexdigest E (read_file E w f))
    else acc !! f.
Proof.
  revert acc. induction l as [|x l IH]; intros acc; simpl; [done|].
  rewrite IH. destruct (decide (f ∈ l)) as [Hin|Hin].
  - rewrite !bool_decide_eq_true_2; [done| by right | done].
  - rewrite (bool_decide_eq_false_2 (f ∈ l)) by done.
    destruct (decide (f = x)) as [->|Hne].
    + rewrite lookup_insert_eq, bool_decide_eq_true_2; [done|by left].
    + rewrite lookup_insert_ne by done.
      rewrite bool_decide_eq_false_2; [done|].
      intros [?|?]%elem_of_cons; done.
Qed.

(** [_hash_files] maps each listed file, and no other, to the digest of its
    content. *)
Theorem hash_files_lookup (w : W E) (filenames : list string) (f : string) :
  _hash_files E w filenames !! f
  = if bool_decide (f ∈ filenames) then Some (sha384_hexdigest E (read_file E w f))
    else None.
Proof. unfold _hash_files. by rewrite hash_files_from, lookup_empty. Qed.

Lemma diff_dicts_elem (dict1 dict2 : gmap string string) (k : string) :
  (k ∈ added (_diff_dicts dict1 dict2) <-> dict1 !! k = None /\ is_Some (dict2 !! k))
  /\ (k ∈ removed (_diff_dicts dict1 dict2) <-> is_Some (dict1 !! k) /\ dict2 !! k = None)
  /\ (k ∈ changed (_diff_dicts dict1 dict2) <->
        exists v1 v2, dict1 !! k = Some v1 /\ dict2 !! k = Some v2 /\ v1 ≠ v2).
Proof.
  unfold _diff_dicts.
  pose proof (diff_dicts_first_loop dict2 (map_to_list dict1) [] []) as Hfirst.
  simpl in Hfirst.
  destruct (foldl _ ([], []) (map_to_list dict1)) as [rem chg].
  destruct Hfirst as [Hrem Hchg]. simpl in *.
  split; [|split].
  - rewrite diff_dicts_second_loop, list_elem_of_fmap. split.
    + intros [Hin|[([k' v] & -> & Hin) Hn]]; [by apply elem_of_nil in Hin|].
      apply elem_of_map_to_list in Hin. simpl in *. eauto.
    + intros [Hn [v Hv]]. right. split; [|done].
      exists (k, v). split; [done|]. by apply elem_of_map_to_list.
  - rewrite Hrem. split.
    + intros [Hin|(v & Hin & Hn)]; [by apply elem_of_nil in Hin|].
      apply elem_of_map_to_list in Hin. eauto.
    + intros [[v Hv] Hn]. right. exists v. by rewrite elem_of_map_to_list.
  - rewrite Hchg. split.
    + intros [Hin|(v & v2 & Hin & Hs & Hd)]; [by apply elem_of_nil in Hin|].
      apply elem_of_map_to_list in Hin. eauto.
    + intros (v1 & v2 & H1 & H2 & Hd). right. exists v1, v2.
      by rewrite elem_of_map_to_list.
Qed.

Lemma no_elem_nil {A} (l : list A) : (forall x, x ∉ l) -> l = [].
Proof. destruct l as [|x l]; [done|]. intros H. destruct (H x). by left. Qed.

(** The comparison finds nothing exactly when the two digest maps are
    equal. *)
Theorem diff_dicts_empty_iff_equal (dict1 dict2 : gmap string string) :
  added (_diff_dicts dict1 dict2) = []
  /\ removed (_diff_dicts dict1 dict2) = []
  /\ changed (_diff_dicts dict1 dict2) = []
  <-> dict1 = dict2.
Proof.
  split.
  - intros (Ha & Hr & Hc). apply map_eq. intros k.
    destruct (diff_dicts_elem dict1 dict2 k) as (Hka & Hkr & Hkc).
    rewrite Ha in Hka. rewrite Hr in Hkr. rewrite Hc in Hkc.
    destruct (dict1 !! k) as [v1|] eqn:H1, (dict2 !! k) as [v2|] eqn:H2; [| | |done].
    + destruct (decide (v1 = v2)) as [->|Hne]; [done|].
      exfalso. eapply elem_of_nil, Hkc. eauto.
    + exfalso. eapply elem_of_nil, Hkr. eauto.
    + exfalso. eapply elem_of_nil, Hka. eauto.
  - intros <-. repeat split; apply no_elem_nil; intros k Hk;
      destruct (diff_dicts_elem dict1 dict1 k) as (Hka & Hkr & Hkc).
    + apply Hka in Hk as [Hn [v Hv]]. congruence.
    + apply Hkr in Hk as [[v Hv] Hn]. congruence.
    + apply Hkc in Hk as (v1 & v2 & H1 & H2 & Hne). congruence.
Qed.

(** Comparing the other way round swaps added and removed and leaves changed
    as it is. *)
Theorem diff_dicts_swap (dict1 dict2 : gmap string string) (k : string) :
  (k ∈ added (_diff_dicts dict1 dict2) <-> k ∈ removed (_diff_dicts dict2 dict1))
  /\ (k ∈ removed (_diff_dicts dict1 dict2) <-> k ∈ added (_diff_dicts dict2 dict1))
  /\ (k ∈ changed (_diff_dicts dict1 dict2) <-> k ∈ changed (_diff_dicts dict2 dict1)).
Proof.
  destruct (diff_dicts_elem dict1 dict2 k) as (Ha & Hr & Hc).
  destruct (diff_dicts_elem dict2 dict1 k) as (Ha' & Hr' & Hc').
  rewrite Ha, Hr, Hc, Ha', Hr', Hc'. split; [tauto|]. split; [tauto|].
  split; intros (v1 & v2 & H1 & H2 & Hne); exists v2, v1; eauto.
Qed.

Lemma diff_dicts_first_loop_lists (dict2 : gmap string string)
    (l : list (string * string)) (rem chg : list string) :
  foldl (fun '(removed_keys, changed_keys) '(key, value) =>
           match dict2 !! key with
           | Some value2 =>
               if bool_decide (value ≠ value2)
               then (removed_keys, changed_keys ++ [key])
               else (removed_keys, changed_keys)
           | None => (removed_keys ++ [key], changed_keys)
           end) (rem, chg) l
  = (rem ++ (fst <$> List.filter (fun kv => bool_decide (dict2 !! fst kv = None)) l),
     chg ++ (fst <$> List.filter
               (fun kv => match dict2 !! fst kv with
                          | Some value2 => bool_decide (snd kv ≠ value2)
                          | None => false
                          end) l)).
Proof.
  revert rem chg. induction l as [|[key value] l IH]; intros rem chg; simpl.
  - by rewrite !app_nil_r.
  - destruct (dict2 !! key) as [value2|] eqn:Hk; simpl.
    + rewrite ?(bool_decide_eq_false_2 (Some value2 = None)) by done.
      destruct (bool_decide (value ≠ value2)); rewrite IH; simpl; [|done].
      by rewrite <- app_assoc.
    + rewrite ?(bool_decide_eq_true_2 (None = None)) by done.
      rewrite IH. simpl. by rewrite <- app_assoc.
Qed.

Lemma diff_dicts_second_loop_list (dict1 : gmap string string) (l acc : list string) :
  foldl (fun added_keys key =>
           if bool_decide (key ∉ dom dict1) then added_keys ++ [key] else added_keys)
        acc l
  = acc ++ List.filter (fun key => bool_decide (key ∉ dom dict1)) l.
Proof.
  revert acc. induction l as [|key l IH]; intros acc; simpl.
  - by rewrite app_nil_r.
  - rewrite IH. destruct (bool_decide (key ∉ dom dict1)); [|done].
    by rewrite <- app_assoc.
Qed.

Lemma NoDup_fmap_filter {A B} (f : A -> B) (p : A -> bool) (l : list A) :
  NoDup (f <$> l) -> NoDup (f <$> List.filter p l).
Proof.
  induction l as [|x l IH]; simpl; [done|].
  intros [Hx Hl]%NoDup_cons. destruct (p x); simpl; [|auto].
  apply NoDup_cons. split; [|auto].
  intros (y & Hy & Hin)%list_elem_of_fmap. apply Hx.
  apply list_elem_of_fmap. exists y. split; [done|].
  apply list_elem_of_In, filter_In in Hin as [Hin _]. by apply list_elem_of_In.
Qed.

Lemma NoDup_List_filter {A} (p : A -> bool) (l : list A) :
  NoDup l -> NoDup (List.filter p l).
Proof.
  induction l as [|x l IH]; simpl; [done|].
  intros [Hx Hl]%NoDup_cons. destruct (p x); [|auto].
  apply NoDup_cons. split; [|auto].
  intros Hin. apply Hx.
  apply list_elem_of_In, filter_In in Hin as [Hin _]. by apply list_elem_of_In.
Qed.

(** A key is reported once at most: the three lists have no repetition and
    share no key. *)
Theorem diff_dicts_no_key_twice (dict1 dict2 : gmap string string) :
  NoDup (added (_diff_dicts dict1 dict2) ++ removed (_diff_dicts dict1 dict2)
         ++ changed (_diff_dicts dict1 dict2)).
Proof.
  assert (Hnd : NoDup (added (_diff_dicts dict1 dict2))
                /\ NoDup (removed (_diff_dicts dict1 dict2))
                /\ NoDup (changed (_diff_dicts dict1 dict2))).
  { unfold _diff_dicts. rewrite diff_dicts_first_loop_lists.
    rewrite diff_dicts_second_loop_list. simpl.
    split; [|split].
    - apply NoDup_List_filter, NoDup_fst_map_to_list.
    - apply NoDup_fmap_filter, NoDup_fst_map_to_list.
    - apply NoDup_fmap_filter, NoDup_fst_map_to_list. }
  destruct Hnd as (Ha & Hr & Hc).
  apply NoDup_app. split; [done|]. split.
  - intros k Hk [Hin|Hin]%elem_of_app;
      destruct (diff_dicts_elem dict1 dict2 k) as (Hka & Hkr & Hkc).
    + apply Hka in Hk as [Hn _]. apply Hkr in Hin as [[v Hv] _]. congruence.
    + apply Hka in Hk as [Hn _]. apply Hkc in Hin as (v1 & v2 & H1 & _). congruence.
  - apply NoDup_app. split; [done|]. split; [|done].
    intros k Hk Hin. destruct (diff_dicts_elem dict1 dict2 k) as (Hka & Hkr & Hkc).
    apply Hkr in Hk as [_ Hn]. apply Hkc in Hin as (v1 & v2 & _ & H2 & _). congruence.
Qed.

(** Two snapshots of the same list of files: nothing is added or removed, and
    the changed files are the listed ones whose digest differs. *)
Theorem diff_of_hashes_same_files (w1 w2 : W E) (filenames : list string) (k : string) :
  added (_diff_dicts (_hash_files E w1 filenames) (_hash_files E w2 filenames)) = []
  /\ removed (_diff_dicts (_hash_files E w1 filenames) (_hash_files E w2 filenames)) = []
  /\ (k ∈ changed (_diff_dicts (_hash_files E w1 filenames) (_hash_files E w2 filenames))
      <-> k ∈ filenames
          /\ sha384_hexdigest E (read_file E w1 k) ≠ sha384_hexdigest E (read_file E w2 k)).
Proof.
  assert (Hlook : forall w f, _hash_files E w filenames !! f
            = if bool_decide (f ∈ filenames)
              then Some (sha384_hexdigest E (read_file E w f)) else None).
  { intros w f. unfold _hash_files. by rewrite hash_files_from, lookup_empty. }
  split; [|split].
  - apply no_elem_nil. intros f Hf.
    destruct (diff_dicts_elem (_hash_files E w1 filenames) (_hash_files E w2 filenames) f)
      as (Hka & _ & _).
    apply Hka in Hf as [Hn [v Hv]]. rewrite Hlook in Hn, Hv.
    by destruct (bool_decide (f ∈ filenames)).
  - apply no_elem_nil. intros f Hf.
    destruct (diff_dicts_elem (_hash_files E w1 filenames) (_hash_files E w2 filenames) f)
      as (_ & Hkr & _).
    apply Hkr in Hf as [[v Hv] Hn]. rewrite Hlook in Hn, Hv.
    by destruct (bool_decide (f ∈ filenames)).
  - destruct (diff_dicts_elem (_hash_files E w1 filenames) (_hash_files E w2 filenames) k)
      as (_ & _ & Hkc).
    rewrite Hkc, !Hlook. case_bool_decide as Hin.
    + split.
      * intros (v1 & v2 & [= <-] & [= <-] & Hne). done.
      * intros [_ Hne]. eauto.
    + split; [by intros (v1 & v2 & ? & _)|by intros [? _]].
Qed.

(** ** [run.py]: filtering and classifying *)

(** [filter_by_include_exclude] keeps, in their order, the names that the
    include pattern finds and the exclude pattern does not. *)
Theorem filter_by_include_exclude_keeps (names : list string)
    (include exclude : string) (f : string) :
  sublist (filter_by_include_exclude E names include exclude) names
  /\ (f ∈ filter_by_include_exclude E names include exclude
      <-> f ∈ names /\ re_search E include f = true /\ re_search E exclude f = false).
Proof.
  unfold filter_by_include_exclude. split.
  - induction names as [|x names IH]; simpl; [constructor|].
    destruct (_ && _); by constructor.
  - rewrite list_elem_of_In, filter_In, <- list_elem_of_In.
    rewrite andb_true_iff, negb_true_iff. done.
Qed.

(** A new classifier has an empty cache and holds, in their order, the given
    files that exist. *)
Theorem classifier_holds_existing_files (filenames0 : list string) (st : State E)
    (f : string) :
  exists self,
    Classifier_init E filenames0 st = (Ok self, st)
    /\ _types_cache self = ∅
    /\ sublist (filenames self) filenames0
    /\ (f ∈ filenames self <-> f ∈ filenames0 /\ lexists E (world E st) f = true).
Proof.
  eexists. split; [reflexivity|]. simpl. split; [done|]. split.
  - induction filenames0 as [|x l IH]; simpl; [constructor|].
    destruct (lexists E (world E st) x); by constructor.
  - by rewrite list_elem_of_In, filter_In, <- list_elem_of_In.
Qed.

Lemma types_for_file_known (self : Classifier) (filename : string) (st : State E) :
  exists self' evs,
    _types_for_file E self filename st
      = (Ok (tags_known E self (world E st) filename, self'),
         {| world := world E st; environ := environ E st;
            trace := trace E st ++ evs |})
    /\ (forall g, tags_known E self' (world E st) g = tags_known E self (world E st) g)
    /\ filenames self' = filenames self.
Proof.
  unfold _types_for_file, tags_known.
  destruct (_types_cache self !! filename) as [tags|] eqn:Hc.
  - exists self, []. unfold_M. rewrite app_nil_r. by destruct st.
  - eexists _, [TagsFromPath filename]. unfold_M. split; [reflexivity|].
    split; [|done]. intros g. simpl.
    destruct (decide (filename = g)) as [<-|Hne].
    + by rewrite lookup_insert_eq, Hc.
    + by rewrite lookup_insert_ne.
Qed.

Lemma by_types_loop_selects (names : list string) (self : Classifier)
    (types exclude_types : list string) (acc : list string) (st : State E) :
  exists self' evs,
    by_types_loop E self names (list_to_set types) (list_to_set exclude_types) acc st
      = (Ok (acc ++ List.filter
                      (fun f => tags_pass types exclude_types
                                  (tags_known E self (world E st) f)) names,
             self'),
         {| world := world E st; environ := environ E st;
            trace := trace E st ++ evs |})
    /\ filenames self' = filenames self.
Proof.
  revert self acc st. induction names as [|f names IH]; intros self acc st.
  - exists self, []. simpl. unfold_M. rewrite !app_nil_r. by destruct st.
  - destruct (types_for_file_known self f st) as (self1 & evs1 & Hrun & Hsame & Hf1).
    destruct (IH self1
                (if tags_pass types exclude_types (tags_known E self (world E st) f)
                 then acc ++ [f] else acc)
                {| world := world E st; environ := environ E st;
                   trace := trace E st ++ evs1 |})
      as (self2 & evs2 & Hrest & Hf2).
    exists self2, (evs1 ++ evs2). split; [|congruence].
    assert (Hfil : List.filter
                     (fun g => tags_pass types exclude_types
                                 (tags_known E self1 (world E st) g)) names
                   = List.filter
                       (fun g => tags_pass types exclude_types
                                   (tags_known E self (world E st) g)) names).
    { apply List.filter_ext. intros g. by rewrite Hsame. }
    simpl in Hrest. rewrite Hfil in Hrest.
    simpl. unfold mbind, M_bind, bind. rewrite Hrun. simpl.
    etransitivity; [exact Hrest|].
    rewrite app_assoc. do 3 f_equal.
    destruct (tags_pass types exclude_types (tags_known E self (world E st) f));
      [|done].
    by rewrite <- app_assoc.
Qed.

(** The files a hook gets: those of the classifier that pass the hook's
    include and exclude patterns and whose tags (the cached ones, or the
    oracle's for a file not asked about before) hold all of the hook's types
    and none of its excluded types.  The order is kept, and nothing but the
    cache and the trace changes. *)
Theorem filenames_for_hook_selects (self : Classifier) (hook : Hook) (st : State E) :
  exists self' evs,
    filenames_for_hook E self hook st
      = (Ok (List.filter
               (fun f => tags_pass (hook_types hook) (hook_exclude_types hook)
                           (tags_known E self (world E st) f))
               (filter_by_include_exclude E (filenames self)
                  (hook_files hook) (hook_exclude hook)),
             self'),
         {| world := world E st; environ := environ E st;
            trace := trace E st ++ evs |})
    /\ filenames self' = filenames self.
Proof.
  unfold filenames_for_hook, by_types.
  destruct (by_types_loop_selects
              (filter_by_include_exclude E (filenames self) (hook_files hook)
                 (hook_exclude hook))
              self (hook_types hook) (hook_exclude_types hook) [] st)
    as (self' & evs & Hrun & Hf).
  exists self', evs. by rewrite Hrun.
Qed.

(** ** [run.py]: one hook *)

(** A hook that is not in the skip set, is not marked always-run and has no
    file to check is reported as skipped for want of files, counts as a
    success, and its [run] is not called. *)
Theorem hook_without_files_is_not_run (git_shim : GitAdapter) (self : Classifier)
    (hook : Hook) (args : Args) (skips : gset string) (cols : Z) (st : State E)
    (self1 : Classifier) (st1 : State E) :
  filenames_for_hook E self hook st = (Ok ([], self1), st1) ->
  hook_id hook ∉ skips ->
  hook_alias hook ∉ skips ->
  hook_always_run hook = false ->
  exists st',
    _run_single_hook E git_shim self hook args skips cols st = (Ok (0, self1), st')
    /\ last (trace E st')
       = Some (Write (get_hook_message E
           {| msg_start := _hook_msg_start hook (args_verbose args);
              msg_postfix := NO_FILES; msg_end_msg := Some SKIPPED; msg_end_len := 0;
              msg_end_color := Some (TURQUOISE E);
              msg_use_color := Some (args_color args); msg_cols := cols |}))
    /\ hook_runs (trace E st') = hook_runs (trace E st1)
    /\ world E st' = world E st1.
Proof.
  intros Hnames Hid Halias Halways.
  assert (Hb : bool_decide (hook_id hook ∈ skips)
               || bool_decide (hook_alias hook ∈ skips) = false).
  { apply orb_false_iff. split; by apply bool_decide_eq_false. }
  unfold _run_single_hook, mbind, M_bind, bind. rewrite Hnames. simpl.
  rewrite Hb, Halways. simpl.
  destruct (String.eqb (hook_language hook) "pcre"); unfold_M;
    (eexists; split; [reflexivity|]); simpl;
    rewrite ?last_snoc, ?hook_runs_app; simpl; rewrite ?app_nil_r; done.
Qed.

(** What an invoked hook is recorded with: 0 when it exited with 0 and the
    two diff snapshots around its run are equal, and 1 in every other
    case. *)
Theorem invoked_hook_result (git_shim : GitAdapter) (self : Classifier)
    (hook : Hook) (args : Args) (skips : gset string) (cols : Z) (st : State E)
    (names : list string) (self1 : Classifier) (st1 : State E)
    (diff_before diff_after : snapshot) (retcode : Z) (stdout stderr : string)
    (w2 : W E) :
  filenames_for_hook E self hook st = (Ok (names, self1), st1) ->
  hook_id hook ∉ skips ->
  hook_alias hook ∉ skips ->
  names ≠ [] \/ hook_always_run hook = true ->
  get_diff E git_shim (world E st1) = Ok diff_before ->
  hook_run E hook (if hook_pass_filenames hook then names else []) (world E st1)
    = (retcode, stdout, stderr, w2) ->
  get_diff E git_shim w2 = Ok diff_after ->
  exists r st',
    _run_single_hook E git_shim self hook args skips cols st = (Ok (r, self1), st')
    /\ (r = 0 <-> retcode = 0 /\ diff_before = diff_after)
    /\ (r = 0 \/ r = 1)
    /\ world E st' = w2.
Proof.
  intros Hnames Hid Halias Hfiles Hbefore Hrun Hafter.
  assert (Hb : bool_decide (hook_id hook ∈ skips)
               || bool_decide (hook_alias hook ∈ skips) = false).
  { apply orb_false_iff. split; by apply bool_decide_eq_false. }
  assert (Hn : negb (list_truthy names) && negb (hook_always_run hook) = false).
  { destruct Hfiles as [Hne| ->]; [|by rewrite andb_false_r].
    destruct names; [done|reflexivity]. }
  unfold _run_single_hook, mbind, M_bind, bind. rewrite Hnames. simpl.
  rewrite Hb, Hn.
  destruct (String.eqb (hook_language hook) "pcre"); unfold_M;
    rewrite Hbefore; unfold call_hook_run, mbind, M_bind, bind, emit, act_with;
    simpl; rewrite Hrun; simpl; rewrite Hafter; simpl;
    unfold write_stripped, when, emit, M_ret, ret;
    (destruct (bool_decide_reflect (diff_before ≠ diff_after)) as [Hm|Hm]; simpl;
     [|apply dec_stable in Hm; unfold int_truthy;
       destruct (Z.eqb_spec retcode 0) as [Hz|Hz]; simpl]);
    destruct (str_truthy stdout || str_truthy stderr);
    destruct (str_truthy (Str.strip_bytes stdout));
    destruct (str_truthy (Str.strip_bytes stderr));
    destruct (args_verbose args); destruct (hook_verbose hook); simpl;
    (eexists _, _; split; [reflexivity|]); simpl;
    (split; [split; [try discriminate; intros _; by split
                    |try (intros [? ?]; congruence); done]
            |split; [auto|done]]).
Qed.

(** When a hook changed files, the report says that it failed and that files
    were modified by it, under its id. *)
Theorem modifying_hook_is_reported (git_shim : GitAdapter) (self : Classifier)
    (hook : Hook) (args : Args) (skips : gset string) (cols : Z) (st : State E)
    (names : list string) (self1 : Classifier) (st1 : State E)
    (diff_before diff_after : snapshot) (retcode : Z) (stdout stderr : string)
    (w2 : W E) :
  filenames_for_hook E self hook st = (Ok (names, self1), st1) ->
  hook_id hook ∉ skips ->
  hook_alias hook ∉ skips ->
  names ≠ [] \/ hook_always_run hook = true ->
  get_diff E git_shim (world E st1) = Ok diff_before ->
  hook_run E hook (if hook_pass_filenames hook then names else []) (world E st1)
    = (retcode, stdout, stderr, w2) ->
  get_diff E git_shim w2 = Ok diff_after ->
  diff_before ≠ diff_after ->
  exists tail,
    trace E (snd (_run_single_hook E git_shim self hook args skips cols st))
    = trace E st1 ++ tail
    /\ WriteLine (Some (format_color E "Failed" (RED E) (args_color args))) None ∈ tail
    /\ WriteLine (Some ("hookid: " +:+ hook_id hook +:+ nl)) None ∈ tail
    /\ Write "Files were modified by this hook." ∈ tail.
Proof.
  intros Hnames Hid Halias Hfiles Hbefore Hrun Hafter Hdiff.
  assert (Hb : bool_decide (hook_id hook ∈ skips)
               || bool_decide (hook_alias hook ∈ skips) = false).
  { apply orb_false_iff. split; by apply bool_decide_eq_false. }
  assert (Hn : negb (list_truthy names) && negb (hook_always_run hook) = false).
  { destruct Hfiles as [Hne| ->]; [|by rewrite andb_false_r].
    destruct names; [done|reflexivity]. }
  assert (Hm : bool_decide (diff_before ≠ diff_after) = true)
    by by apply bool_decide_eq_true.
  unfold _run_single_hook, mbind, M_bind, bind. rewrite Hnames. simpl.
  rewrite Hb, Hn.
  destruct (String.eqb (hook_language hook) "pcre"); unfold_M;
    rewrite Hbefore; unfold call_hook_run, mbind, M_bind, bind, emit, act_with;
    simpl; rewrite Hrun; simpl; rewrite Hafter, Hm; simpl;
    unfold write_stripped, when, emit, M_ret, ret;
    destruct (str_truthy stdout || str_truthy stderr);
    destruct (str_truthy (Str.strip_bytes stdout));
    destruct (str_truthy (Str.strip_bytes stderr)); simpl;
    rewrite <- !app_assoc; simpl;
    (eexists; split; [reflexivity|]);
    repeat split; rewrite !elem_of_cons; tauto.
Qed.

(** ** [run.py]: the exit code *)

Lemma returns_ret {A} (a : A) (Q : A -> Prop) : Q a -> returns E (ret E a) Q.
Proof. intros HQ st b. unfold_M. by intros [= <-]. Qed.

Lemma returns_raise {A} (e : exn) (Q : A -> Prop) : returns E (raise E e) Q.
Proof. intros st b. by unfold_M. Qed.

Lemma returns_any {A} (c : M E A) : returns E c (fun _ => True).
Proof. by intros st a _. Qed.

Lemma returns_bind {A B} (c : M E A) (k : A -> M E B) (P : A -> Prop) (Q : B -> Prop) :
  returns E c P -> (forall a, P a -> returns E (k a) Q) -> returns E (bind E c k) Q.
Proof.
  intros Hc Hk st b. unfold bind. specialize (Hc st).
  destruct (c st) as [[a|e] st1]; simpl in *; [|done].
  apply (Hk a); auto.
Qed.

Lemma returns_with_ctx {A} (ctx : ContextManager (W E)) (body : M E A) (Q : A -> Prop) :
  returns E body Q -> returns E (with_ctx E ctx body) Q.
Proof.
  intros Hb st a. unfold with_ctx. unfold_M.
  specialize (Hb {| world := ctx_enter ctx (world E st); environ := environ E st;
                    trace := trace E st |} a).
  destruct (body _) as [r st']. simpl in *. done.
Qed.

Ltac returns_step :=
  unfold mbind, M_bind, mret, M_ret;
  match goal with
  | |- returns _ (bind _ _ _) _ => eapply returns_bind; [apply returns_any|intros ? _]
  | |- returns _ (ret _ _) _ => apply returns_ret; simpl; auto
  | |- returns _ (raise _ _) _ => apply returns_raise
  | |- returns _ (match (if ?b then _ else _) with (_, _) => _ end) _ => destruct b
  | |- returns _ (if ?b then _ else _) _ => destruct b
  | |- returns _ (match ?x with (_, _) => _ end) _ => destruct x
  | |- returns _ (let (_, _) := ?x in _) _ => destruct x
  end.

Lemma run_single_hook_returns (git_shim : GitAdapter) (self : Classifier)
    (hook : Hook) (args : Args) (skips : gset string) (cols : Z) :
  returns E (_run_single_hook E git_shim self hook args skips cols)
    (fun a => fst a = 0 \/ fst a = 1).
Proof. unfold _run_single_hook. repeat returns_step. Qed.

Lemma lor_bit (a b : Z) : (a = 0 \/ a = 1) -> (b = 0 \/ b = 1) ->
  Z.lor a b = 0 \/ Z.lor a b = 1.
Proof. intros [-> | ->] [-> | ->]; simpl; auto. Qed.

Lemma run_hooks_loop_returns (git_shim : GitAdapter) (fail_fast : bool) (args : Args)
    (skips : gset string) (cols : Z) (hooks : list Hook) (retval : Z)
    (self : Classifier) :
  retval = 0 \/ retval = 1 ->
  returns E (_run_hooks_loop E git_shim fail_fast args skips cols hooks retval self)
    (fun a => fst a = 0 \/ fst a = 1).
Proof.
  revert retval self. induction hooks as [|hook hooks IH]; intros retval self Hv; simpl.
  - by apply returns_ret.
  - unfold mbind, M_bind.
    eapply returns_bind; [apply run_single_hook_returns|].
    intros [r self1] Hr. simpl in Hr.
    pose proof (lor_bit retval r Hv Hr) as Hlor.
    destruct (int_truthy (Z.lor retval r) && fail_fast).
    + by apply returns_ret.
    + by apply IH.
Qed.

Lemma run_hooks_returns (git_shim : GitAdapter) (config : Config E)
    (hooks : list Hook) (args : Args) :
  returns E (_run_hooks E git_shim config hooks args) (fun r => r = 0 \/ r = 1).
Proof.
  unfold _run_hooks, mbind, M_bind.
  do 4 (eapply returns_bind; [apply returns_any|intros ? _]).
  eapply returns_bind; [apply run_hooks_loop_returns; by left|].
  intros [retval self] Hr. simpl in Hr.
  eapply returns_bind; [apply returns_any|intros ? _].
  by apply returns_ret.
Qed.

(** A run that returns, returns 0 or 1. *)
Theorem run_returns_0_or_1 (config_file : string) (store : Store) (args : Args)
    (st : State E) (r : Z) :
  fst (run E config_file store args st) = Ok r -> r = 0 \/ r = 1.
Proof.
  revert st r. change (returns E (run E config_file store args) (fun r => r = 0 \/ r = 1)).
  unfold run, mbind, M_bind.
  eapply returns_bind; [apply returns_any|intros unmerged _].
  destruct unmerged; [repeat returns_step|].
  destruct (xorb _ _); [repeat returns_step|].
  eapply returns_bind; [apply returns_any|intros unstaged _].
  destruct (unstaged && _); [repeat returns_step|].
  eapply returns_bind; [apply returns_any|intros ? _].
  apply returns_with_ctx.
  do 2 (eapply returns_bind; [apply returns_any|intros ? _]).
  destruct (opt_truthy (args_hook args) && _); [repeat returns_step|].
  eapply returns_bind; [apply returns_any|intros ? _].
  apply run_hooks_returns.
Qed.

(** ** [run.py]: the loop over the hooks *)

(** Without [fail_fast] the loop over a list of hooks is the loop over its
    first part followed by the loop over the rest, started from the result
    and the classifier reached: no hook is left out after a failure. *)
Theorem run_hooks_loop_without_fail_fast_app (git_shim : GitAdapter) (args : Args)
    (skips : gset string) (cols : Z) (hooks1 hooks2 : list Hook) (retval : Z)
    (self : Classifier) (st : State E) :
  _run_hooks_loop E git_shim false args skips cols (hooks1 ++ hooks2) retval self st
  = bind E (_run_hooks_loop E git_shim false args skips cols hooks1 retval self)
      (fun a => _run_hooks_loop E git_shim false args skips cols hooks2 (fst a) (snd a))
      st.
Proof.
  revert retval self st.
  induction hooks1 as [|hook hooks1 IH]; intros retval self st; simpl.
  - reflexivity.
  - unfold mbind, M_bind, bind.
    destruct (_run_single_hook E git_shim self hook args skips cols st)
      as [[[r self1]|e] st1]; [|done].
    simpl. rewrite andb_false_r. rewrite IH. reflexivity.
Qed.

Lemma run_hooks_loop_keeps_failure_returns (git_shim : GitAdapter) (fail_fast : bool)
    (args : Args) (skips : gset string) (cols : Z) (hooks : list Hook) (retval : Z)
    (self : Classifier) :
  retval ≠ 0 ->
  returns E (_run_hooks_loop E git_shim fail_fast args skips cols hooks retval self)
    (fun a => fst a ≠ 0).
Proof.
  revert retval self. induction hooks as [|hook hooks IH]; intros retval self Hv; simpl.
  - by apply returns_ret.
  - unfold mbind, M_bind.
    eapply returns_bind; [apply returns_any|].
    intros [r self1] _.
    assert (Hlor : Z.lor retval r ≠ 0).
    { intros Hz. apply Z.lor_eq_0_iff in Hz as [? _]. done. }
    destruct (int_truthy (Z.lor retval r) && fail_fast).
    + by apply returns_ret.
    + by apply IH.
Qed.

(** A failure is not forgotten: from a failing result on, whatever hooks
    follow and whatever they return, the loop ends with a failing result. *)
Theorem run_hooks_loop_keeps_failure (git_shim : GitAdapter) (fail_fast : bool)
    (args : Args) (skips : gset string) (cols : Z) (hooks : list Hook) (retval : Z)
    (self : Classifier) (st : State E) (retval' : Z) (self' : Classifier) :
  retval ≠ 0 ->
  fst (_run_hooks_loop E git_shim fail_fast args skips cols hooks retval self st)
    = Ok (retval', self') ->
  retval' ≠ 0.
Proof.
  intros Hv Hrun.
  apply (run_hooks_loop_keeps_failure_returns git_shim fail_fast args skips cols
           hooks retval self Hv st (retval', self') Hrun).
Qed.

Lemma foldr_max_bounds (l : list Z) :
  0 <= foldr Z.max 0 l /\ Forall (fun x => x <= foldr Z.max 0 l) l.
Proof.
  induction l as [|x l [IH0 IH]]; simpl; [split; [lia|constructor]|].
  split; [lia|]. constructor; [lia|].
  eapply Forall_impl; [exact IH|]. intros y Hy. simpl in Hy. lia.
Qed.

(** The column count is at least 80 and leaves room, after every hook's
    label, for the dots, [(no files to check)], a space and [Skipped]. *)
Theorem compute_cols_bounds (hooks : list Hook) (verbose : bool) :
  80 <= _compute_cols hooks verbose
  /\ Forall (fun hook =>
               Z.of_nat (String.length (_hook_msg_start hook verbose)) + 3
               + Z.of_nat (String.length NO_FILES) + 1
               + Z.of_nat (String.length SKIPPED)
               <= _compute_cols hooks verbose) hooks.
Proof.
  unfold _compute_cols. split; [lia|].
  destruct hooks as [|hook hooks]; [constructor|].
  cbn [list_truthy].
  pose proof (foldr_max_bounds
    ((fun hook => Z.of_nat (String.length (_hook_msg_start hook verbose)))
       <$> (hook :: hooks))) as [_ Hall].
  rewrite Forall_fmap in Hall.
  eapply Forall_impl; [exact Hall|]. intros h Hh.
  unfold compose in Hh. cbv beta in Hh.
  set (m := foldr Z.max 0 _) in *. lia.
Qed.

(** ** [run.py]: the environment dictionary *)

Lemma keeps_ret {A} (a : A) : keeps_environ E (ret E a).
Proof. by intros st. Qed.

Lemma keeps_raise {A} (e : exn) : keeps_environ E (raise E e : M E A).
Proof. by intros st. Qed.

Lemma keeps_query {A} (f : W E -> result A) : keeps_environ E (query E f).
Proof. by intros st. Qed.

Lemma keeps_emit (ev : event) : keeps_environ E (emit E ev).
Proof. by intros st. Qed.

Lemma keeps_act (f : W E -> W E) : keeps_environ E (act E f).
Proof. by intros st. Qed.

Lemma keeps_act_with {A} (f : W E -> A * W E) : keeps_environ E (act_with E f).
Proof. intros st. unfold act_with. by destruct (f (world E st)). Qed.

Lemma keeps_get_environ : keeps_environ E (get_environ E).
Proof. by intros st. Qed.

Lemma keeps_bind {A B} (c : M E A) (k : A -> M E B) :
  keeps_environ E c -> (forall a, keeps_environ E (k a)) -> keeps_environ E (bind E c k).
Proof.
  intros Hc Hk st. unfold bind. specialize (Hc st).
  destruct (c st) as [[a|e] st1]; simpl in *; [|done].
  by rewrite Hk.
Qed.

Lemma keeps_when (b : bool) (c : M E unit) :
  keeps_environ E c -> keeps_environ E (when E b c).
Proof. intros Hc. unfold when. destruct b; [done|]. apply keeps_ret. Qed.

Lemma keeps_with_ctx {A} (ctx : ContextManager (W E)) (body : M E A) :
  keeps_environ E body -> keeps_environ E (with_ctx E ctx body).
Proof.
  intros Hb st. unfold with_ctx. unfold_M.
  specialize (Hb {| world := ctx_enter ctx (world E st); environ := environ E st;
                    trace := trace E st |}).
  destruct (body _) as [r st']. simpl in *. done.
Qed.

Lemma keeps_filenames_for_hook (self : Classifier) (hook : Hook) :
  keeps_environ E (filenames_for_hook E self hook).
Proof.
  intros st. destruct (filenames_for_hook_spec self hook st)
    as (names & self1 & evs & Hrun & _). by rewrite Hrun.
Qed.

Ltac keeps_step :=
  unfold mbind, M_bind, mret, M_ret;
  match goal with
  | |- keeps_environ _ (bind _ _ _) => apply keeps_bind; [|intros ?]
  | |- keeps_environ _ (ret _ _) => apply keeps_ret
  | |- keeps_environ _ (raise _ _) => apply keeps_raise
  | |- keeps_environ _ (when _ _ _) => apply keeps_when
  | |- keeps_environ _ (emit _ _) => apply keeps_emit
  | |- keeps_environ _ (query _ _) => apply keeps_query
  | |- keeps_environ _ (act _ _) => apply keeps_act
  | |- keeps_environ _ (act_with _ _) => apply keeps_act_with
  | |- keeps_environ _ (get_environ _) => apply keeps_get_environ
  | |- keeps_environ _ (filenames_for_hook _ _ _) => apply keeps_filenames_for_hook
  | |- keeps_environ _ (if ?b then _ else _) => destruct b
  | |- keeps_environ _ (match ?x with (_, _) => _ end) => destruct x
  | |- keeps_environ _ (let (_, _) := ?x in _) => destruct x
  end.

Lemma keeps_run_single_hook (git_shim : GitAdapter) (self : Classifier) (hook : Hook)
    (args : Args) (skips : gset string) (cols : Z) :
  keeps_environ E (_run_single_hook E git_shim self hook args skips cols).
Proof.
  unfold _run_single_hook, call_hook_run, write_stripped. repeat keeps_step.
Qed.

Lemma keeps_run_hooks_loop (git_shim : GitAdapter) (fail_fast : bool) (args : Args)
    (skips : gset string) (cols : Z) (hooks : list Hook) (retval : Z)
    (self : Classifier) :
  keeps_environ E (_run_hooks_loop E git_shim fail_fast args skips cols hooks retval self).
Proof.
  revert retval self. induction hooks as [|hook hooks IH]; intros retval self; simpl.
  - apply keeps_ret.
  - unfold mbind, M_bind. apply keeps_bind; [apply keeps_run_single_hook|].
    intros [r self1]. destruct (_ && _); [apply keeps_ret|apply IH].
Qed.

Lemma keeps_run_hooks (git_shim : GitAdapter) (config : Config E) (hooks : list Hook)
    (args : Args) :
  keeps_environ E (_run_hooks E git_shim config hooks args).
Proof.
  unfold _run_hooks, set_diff_checkpoint, print_checkpointed_diff, Classifier_init.
  repeat first [apply keeps_run_hooks_loop | keeps_step | by intros ?].
Qed.

(** A run writes [PRE_COMMIT_ORIGIN] and [PRE_COMMIT_SOURCE] into the
    environment dictionary when both refs are given and the preflight lets
    the run through, and changes nothing else of the dictionary; in every
    other case the dictionary is left as it was. *)
Theorem run_exports_refs (config_file : string) (store : Store) (args : Args)
    (st : State E) :
  let git_shim := GitAdapter_init (args_without_git args) (args_root args) in
  let no_stash := args_all_files args || list_truthy (args_files args) in
  environ E (snd (run E config_file store args st))
  = if negb (has_unmerged_paths E git_shim (world E st))
       && negb (has_unstaged_config E git_shim config_file (world E st) && negb no_stash)
       && (opt_truthy (args_origin args) && opt_truthy (args_source args))
    then <["PRE_COMMIT_SOURCE" := default "" (args_source args)]>
           (<["PRE_COMMIT_ORIGIN" := default "" (args_origin args)]> (environ E st))
    else environ E st.
Proof.
  intros git_shim no_stash. unfold run. fold git_shim. fold no_stash.
  unfold mbind, M_bind, bind, query. simpl.
  destruct (has_unmerged_paths E git_shim (world E st)); [done|]. simpl.
  destruct (opt_truthy (args_origin args)) eqn:Ho,
           (opt_truthy (args_source args)) eqn:Hs; simpl.
  - destruct (has_unstaged_config E git_shim config_file (world E st) && negb no_stash);
      [done|]. simpl.
    match goal with
    | |- environ E (snd (with_ctx E ?ctx ?body ?st0)) = _ =>
        assert (Hk : keeps_environ E (with_ctx E ctx body));
        [|by rewrite Hk]
    end.
    apply keeps_with_ctx.
    intros st0. destruct (_ && _); [done|]. by rewrite keeps_run_hooks.
  - by rewrite andb_false_r.
  - by rewrite andb_false_r.
  - rewrite andb_false_r.
    destruct (has_unstaged_config E git_shim config_file (world E st) && negb no_stash);
      [done|]. simpl.
    match goal with
    | |- environ E (snd (with_ctx E ?ctx ?body ?st0)) = _ =>
        assert (Hk : keeps_environ E (with_ctx E ctx body));
        [|by rewrite Hk]
    end.
    apply keeps_with_ctx.
    intros st0. destruct (_ && _); [done|]. by rewrite keeps_run_hooks.
Qed.

(** ** [run.py] over the two modes of the adapter *)

Lemma nr_ret {A} (a : A) : never_raises E (ret E a).
Proof. by intros st. Qed.

Lemma nr_query {A} (f : W E -> result A) :
  (forall w, is_ok (f w) = true) -> never_raises E (query E f).
Proof. intros Hf st. apply Hf. Qed.

Lemma nr_emit (ev : event) : never_raises E (emit E ev).
Proof. by intros st. Qed.

Lemma nr_act (f : W E -> W E) : never_raises E (act E f).
Proof. by intros st. Qed.

Lemma nr_act_with {A} (f : W E -> A * W E) : never_raises E (act_with E f).
Proof. intros st. unfold act_with. by destruct (f (world E st)). Qed.

Lemma nr_get_environ : never_raises E (get_environ E).
Proof. by intros st. Qed.

Lemma nr_set_environ (k v : string) : never_raises E (set_environ E k v).
Proof. by intros st. Qed.

Lemma nr_bind {A B} (c : M E A) (k : A -> M E B) :
  never_raises E c -> (forall a, never_raises E (k a)) -> never_raises E (bind E c k).
Proof.
  intros Hc Hk st. unfold bind. specialize (Hc st).
  destruct (c st) as [[a|e] st1]; simpl in *; [|done]. apply Hk.
Qed.

Lemma nr_bind_ret {A B} (a : A) (k : A -> M E B) :
  never_raises E (k a) -> never_raises E (bind E (ret E a) k).
Proof. intros Hk st. apply Hk. Qed.

Lemma nr_when (b : bool) (c : M E unit) :
  never_raises E c -> never_raises E (when E b c).
Proof. intros Hc. unfold when. destruct b; [done|]. apply nr_ret. Qed.

Lemma nr_with_ctx {A} (ctx : ContextManager (W E)) (body : M E A) :
  never_raises E body -> never_raises E (with_ctx E ctx body).
Proof.
  intros Hb st. unfold with_ctx. unfold_M.
  specialize (Hb {| world := ctx_enter ctx (world E st); environ := environ E st;
                    trace := trace E st |}).
  destruct (body _) as [r st']. simpl in *. done.
Qed.

Lemma nr_filenames_for_hook (self : Classifier) (hook : Hook) :
  never_raises E (filenames_for_hook E self hook).
Proof.
  intros st. destruct (filenames_for_hook_spec self hook st)
    as (names & self1 & evs & Hrun & _). by rewrite Hrun.
Qed.

Lemma get_diff_with_git_ok (git_shim : GitAdapter) (w : W E) :
  without_git git_shim = false -> is_ok (get_diff E git_shim w) = true.
Proof. intros Hg. unfold get_diff. by rewrite Hg. Qed.

Lemma all_filenames_with_git_ok (git_shim : GitAdapter) (args : Args) (w : W E) :
  without_git git_shim = false -> is_ok (_all_filenames E git_shim args w) = true.
Proof.
  intros Hg. unfold _all_filenames, get_all_files. rewrite Hg.
  repeat match goal with |- context [if ?b then _ else _] => destruct b end; done.
Qed.

Ltac nr_step :=
  unfold mbind, M_bind, mret, M_ret;
  match goal with
  | |- never_raises _ (bind _ _ _) => apply nr_bind; [|intros ?]
  | |- never_raises _ (ret _ _) => apply nr_ret
  | |- never_raises _ (when _ _ _) => apply nr_when
  | |- never_raises _ (emit _ _) => apply nr_emit
  | |- never_raises _ (act _ _) => apply nr_act
  | |- never_raises _ (act_with _ _) => apply nr_act_with
  | |- never_raises _ (get_environ _) => apply nr_get_environ
  | |- never_raises _ (set_environ _ _ _) => apply nr_set_environ
  | |- never_raises _ (filenames_for_hook _ _ _) => apply nr_filenames_for_hook
  | |- never_raises _ (query _ (fun _ => Ok _)) => apply nr_query; by intros ?
  | |- never_raises _ (if ?b then _ else _) => destruct b
  | |- never_raises _ (match ?x with (_, _) => _ end) => destruct x
  | |- never_raises _ (let (_, _) := ?x in _) => destruct x
  end.

Lemma nr_run_single_hook (git_shim : GitAdapter) (self : Classifier) (hook : Hook)
    (args : Args) (skips : gset string) (cols : Z) :
  without_git git_shim = false ->
  never_raises E (_run_single_hook E git_shim self hook args skips cols).
Proof.
  intros Hg. unfold _run_single_hook, call_hook_run, write_stripped.
  repeat first
    [ apply nr_query; intros ?; by apply get_diff_with_git_ok
    | nr_step ].
Qed.

Lemma nr_run_hooks_loop (git_shim : GitAdapter) (fail_fast : bool) (args : Args)
    (skips : gset string) (cols : Z) (hooks : list Hook) (retval : Z)
    (self : Classifier) :
  without_git git_shim = false ->
  never_raises E (_run_hooks_loop E git_shim fail_fast args skips cols hooks retval self).
Proof.
  intros Hg. revert retval self.
  induction hooks as [|hook hooks IH]; intros retval self; simpl.
  - apply nr_ret.
  - unfold mbind, M_bind. apply nr_bind; [by apply nr_run_single_hook|].
    intros [r self1]. destruct (_ && _); [apply nr_ret|apply IH].
Qed.

Lemma nr_run_hooks (root : option string) (cp : option snapshot) (config : Config E)
    (hooks : list Hook) (args : Args) :
  never_raises E
    (_run_hooks E {| without_git := false; root := root; _diff_checkpoint := cp |}
       config hooks args).
Proof.
  unfold _run_hooks, set_diff_checkpoint, print_checkpointed_diff, Classifier_init.
  cbn [without_git]. unfold mbind, M_bind, mret, M_ret.
  apply nr_bind_ret.
  repeat first
    [ apply nr_run_hooks_loop; reflexivity
    | apply nr_query; intros ?; by apply all_filenames_with_git_ok
    | apply nr_query; intros ?; reflexivity
    | nr_step
    | by intros ? ].
Qed.

(** With git, a run raises none of the adapter's exceptions: it returns. *)
Theorem run_with_git_never_raises (config_file : string) (store : Store)
    (args : Args) (st : State E) :
  args_without_git args = false ->
  is_ok (fst (run E config_file store args st)) = true.
Proof.
  intros Hg. revert st. change (never_raises E (run E config_file store args)).
  unfold run, GitAdapter_init. rewrite Hg.
  repeat first
    [ apply nr_run_hooks
    | apply nr_with_ctx
    | apply nr_query; by intros ?
    | nr_step ].
Qed.

Lemma run_hooks_without_git_raises (git_shim : GitAdapter) (config : Config E)
    (hooks : list Hook) (args : Args) (st : State E) :
  without_git git_shim = true ->
  exists e, _run_hooks E git_shim config hooks args st = (Raise e, st).
Proof.
  intros Hg. unfold _run_hooks, set_diff_checkpoint. rewrite Hg.
  unfold mbind, M_bind, bind, query.
  pose proof (get_diff_without_git_not_ok git_shim (world E st) Hg) as Hd.
  destruct (get_diff E git_shim (world E st)) as [d|e]; [done|]. by exists e.
Qed.

(** Without git, a run invokes no hook and never succeeds: it returns 1 from
    the preflight or for want of a matching hook, or it raises. *)
Theorem run_without_git_runs_no_hook (config_file : string) (store : Store)
    (args : Args) (st : State E) :
  args_without_git args = true ->
  hook_runs (trace E (snd (run E config_file store args st))) = hook_runs (trace E st)
  /\ fst (run E config_file store args st) ≠ Ok 0.
Proof.
  intros Hg. unfold run, GitAdapter_init. rewrite Hg.
  unfold has_unmerged_paths, has_unstaged_config. cbn [without_git].
  unfold mbind, M_bind, bind, query. simpl.
  destruct (xorb _ _); simpl.
  { rewrite hook_runs_app. simpl. by rewrite app_nil_r. }
  unfold with_ctx, mbind, M_bind, bind, when, set_environ, act. simpl.
  destruct (opt_truthy (args_origin args) && opt_truthy (args_source args)); simpl;
    (destruct (opt_truthy (args_hook args) && _); simpl;
     [rewrite hook_runs_app; simpl; by rewrite app_nil_r|]);
    match goal with
    | |- context [_run_hooks E ?g ?c ?h ?a ?s] =>
        destruct (run_hooks_without_git_raises g c h a s eq_refl) as [e ->]
    end; simpl; done.
Qed.

(** When a hook id is asked for and no configured hook has it as id or alias
    at the stage of the run, the run says so and returns 1: no hook
    environment is installed, no checkpoint taken, no hook invoked, and the
    context entered for the run is left again. *)
Theorem run_without_matching_hook (config_file : string) (store : Store)
    (args : Args) (st : State E) (h : string) :
  let git_shim := GitAdapter_init (args_without_git args) (args_root args) in
  let no_stash := args_all_files args || list_truthy (args_files args) in
  let ctx := if no_stash then noop_context E
             else staged_files_only E (store_directory store) in
  let w1 := ctx_enter ctx (world E st) in
  has_unmerged_paths E git_shim (world E st) = false ->
  opt_truthy (args_origin args) = false ->
  opt_truthy (args_source args) = false ->
  has_unstaged_config E git_shim config_file (world E st) && negb no_stash = false ->
  args_hook args = Some h ->
  h ≠ "" ->
  Forall (fun hook => (hook_id hook ≠ h /\ hook_alias hook ≠ h)
                      \/ args_hook_stage args ∉ hook_stages hook)
         (all_hooks E (load_config E config_file w1) store w1) ->
  run E config_file store args st
  = (Ok 1, {| world := ctx_exit ctx w1; environ := environ E st;
              trace := trace E st ++
                       [WriteLine (Some ("No hook with id `" +:+ h +:+ "`")) None] |}).
Proof.
  intros git_shim no_stash ctx w1 Hu Ho Hs Hc Hh Hne Hall.
  assert (Hnone : List.filter
            (fun hook =>
               (negb (opt_truthy (args_hook args))
                || bool_decide (Some (hook_id hook) = args_hook args)
                || bool_decide (Some (hook_alias hook) = args_hook args))
               && bool_decide (args_hook_stage args ∈ hook_stages hook))
            (all_hooks E (load_config E config_file w1) store w1) = []).
  { induction Hall as [|hook l Hhook Hl IH]; simpl; [done|].
    rewrite IH, Hh. simpl.
    assert (Ht : str_truthy h = true).
    { unfold str_truthy. by apply negb_true_iff, String.eqb_neq. }
    rewrite Ht. simpl.
    destruct Hhook as [[Hid Hal]|Hst].
    - rewrite (bool_decide_eq_false_2 (Some (hook_id hook) = Some h))
        by (intros [= ?]; done).
      by rewrite (bool_decide_eq_false_2 (Some (hook_alias hook) = Some h))
        by (intros [= ?]; done).
    - rewrite (bool_decide_eq_false_2 (args_hook_stage args ∈ _)) by done.
      by rewrite andb_false_r. }
  unfold run. fold git_shim. fold no_stash. fold ctx.
  unfold mbind, M_bind, bind, query. cbv beta iota.
  rewrite Hu. cbv beta iota. rewrite Ho, Hs. cbv beta iota delta [xorb].
  rewrite Hc. cbv beta iota.
  unfold with_ctx, when, mbind, M_bind, mret, M_ret, bind, ret, act, query.
  cbn [andb fst snd world environ trace]. fold w1. rewrite Hnone, Hh.
  assert (Ht : str_truthy h = true).
  { unfold str_truthy. by apply negb_true_iff, String.eqb_neq. }
  cbn [opt_truthy list_truthy negb andb]. rewrite Ht.
  cbn. reflexivity.
Qed.

End Proofs.

(** * The theorems at work on the sample world *)

Local Open Scope string_scope.

Lemma head_rev_sample :
  head_rev Sample.externals (GitAdapter_init true (Some ".")) "origin" Sample.clean
    = Ok "0123abc"
  /\ head_rev Sample.externals (GitAdapter_init false None) "origin" Sample.clean
    = Raise NotImplementedError.
Proof. split; reflexivity. Qed.

Lemma get_all_files_sample :
  get_all_files Sample.externals (GitAdapter_init true (Some ".")) Sample.clean
  = Raise (TypeError "got an unexpected keyword argument 'ignoredirs'").
Proof. reflexivity. Qed.

(** With the keyword spelled [prunedirs], the list that [get_all_files]
    builds would still prune nothing: it holds the path [./.git], and the
    directory names of a walk are bare names. *)
Lemma prunedirs_by_path_prunes_nothing :
  _list_filesystem_tree Sample.externals Sample.clean "." false true
    (Some "./.gitignore") false (Some [OsPath.join "." ".git"]) true
  = ["./.git/HEAD"; "./.git/objects/pack"; "./a.py"; "./src/m.py"].
Proof. vm_compute. reflexivity. Qed.

Lemma diff_dicts_sample :
  _diff_dicts {[ "x" := "sha384:1"; "gone" := "sha384:0" ]}
              {[ "x" := "sha384:2"; "new" := "sha384:3" ]}
  = {| added := ["new"]; removed := ["gone"]; changed := ["x"] |}.
Proof. vm_compute. reflexivity. Qed.

Lemma has_checkpointed_diff_sample :
  has_checkpointed_diff Sample.externals
    {| without_git := true; root := Some ".";
       _diff_checkpoint := Some (Digests {[ "./a.py" := "sha384:1" ]}) |}
    [] (Sample.edit Sample.clean)
  = Raise (TypeError "got an unexpected keyword argument 'ignoredirs'").
Proof. reflexivity. Qed.

(** A whole run without git gets as far as the checkpoint and stops there, no
    hook invoked. *)
Lemma run_without_git_sample :
  let args := {| args_hook := None; args_hook_stage := "commit"; args_files := [];
                 args_all_files := true; args_origin := None; args_source := None;
                 args_verbose := false; args_color := false;
                 args_show_diff_on_failure := true; args_without_git := true;
                 args_root := Some "."; args_commit_msg_filename := "" |} in
  run Sample.externals ".pre-commit-config.yaml" {| store_directory := "/store" |}
    args (Sample.start Sample.clean)
  = (Raise (TypeError "got an unexpected keyword argument 'ignoredirs'"),
     Sample.start Sample.clean).
Proof. vm_compute. reflexivity. Qed.

Lemma invert_without_ignorefile_sample :
  _list_filesystem_tree Sample.externals Sample.clean "." false true None true
    (Some [".git"]) true
  = ["./a.py"; "./src/m.py"; "./src/m.pyc"].
Proof. vm_compute. reflexivity. Qed.

Lemma skipped_hook_is_not_run_witness :
  let hook := Sample.hook "lint" ".py" false in
  let environ : gmap string string := {[ "SKIP" := "lint, fixer" ]} in
  (hook_id hook ∈ _get_skips environ \/ hook_alias hook ∈ _get_skips environ)
  /\ exists self' st',
       _run_single_hook Sample.externals (GitAdapter_init false None)
         {| filenames := ["a.py"; "b.txt"]; _types_cache := ∅ |}
         hook Sample.args (_get_skips environ) 80 (Sample.start Sample.clean)
       = (Ok (0, self'), st')
       /\ hook_runs (trace _ st') = [].
Proof.
  intros hook environ.
  assert (Hin : hook_id hook ∈ _get_skips environ).
  { refine (bool_decide_unpack _ _). vm_compute. exact I. }
  split; [by left|].
  destruct (skipped_hook_is_not_run Sample.externals (GitAdapter_init false None)
              {| filenames := ["a.py"; "b.txt"]; _types_cache := ∅ |}
              hook Sample.args environ 80 (Sample.start Sample.clean) (or_introl Hin))
    as (self' & st' & Hrun & _ & Hruns & _).
  exists self', st'. split; [exact Hrun|exact Hruns].
Defined.

Lemma modifying_hook_fails_witness :
  let hook := Sample.hook "fixer" "" true in
  let git_shim := GitAdapter_init false None in
  let self := {| filenames := ["a.py"]; _types_cache := ∅ |} in
  let self1 := {| filenames := ["a.py"];
                  _types_cache := {[ "a.py" := {[ "file"; "text" ]} ]} |} in
  let st1 := Build_State Sample.externals Sample.clean ∅ [TagsFromPath "a.py"] in
  (filenames_for_hook Sample.externals self hook (Sample.start Sample.clean)
     = (Ok (["a.py"], self1), st1)
   /\ get_diff Sample.externals git_shim Sample.clean = Ok (DiffText "")
   /\ Sample.run_hook hook ["a.py"] Sample.clean = (0, "", "", Sample.edit Sample.clean)
   /\ get_diff Sample.externals git_shim (Sample.edit Sample.clean)
      = Ok (DiffText "diff --git a/a.py b/a.py"))
  /\ exists st',
       _run_single_hook Sample.externals git_shim self hook Sample.args ∅ 80
         (Sample.start Sample.clean)
       = (Ok (1, self1), st')
       /\ hook_runs (trace _ st') = [(hook, ["a.py"])].
Proof.
  intros hook git_shim self self1 st1.
  assert (Hnames : filenames_for_hook Sample.externals self hook
                     (Sample.start Sample.clean) = (Ok (["a.py"], self1), st1))
    by (vm_compute; reflexivity).
  split; [split; [exact Hnames|split; [reflexivity|split; reflexivity]]|].
  apply (modifying_hook_fails Sample.externals git_shim self hook Sample.args ∅ 80
           (Sample.start Sample.clean) ["a.py"] self1 st1
           (DiffText "") (DiffText "diff --git a/a.py b/a.py") 0 "" ""
           (Sample.edit Sample.clean) Hnames).
  - apply not_elem_of_empty.
  - apply not_elem_of_empty.
  - left. discriminate.
  - reflexivity.
  - reflexivity.
  - reflexivity.
  - discriminate.
Defined.

Lemma fail_fast_stops_after_failure_witness :
  let git_shim := GitAdapter_init false None in
  let passing := Sample.hook "passing" "" true in
  let failing := Sample.hook "failing" "" true in
  let fixer := Sample.hook "fixer" "" true in
  let self := {| filenames := []; _types_cache := ∅ |} in
  let st1 := Build_State Sample.externals Sample.clean ∅
               [Write "passing..."; Flush; HookRun passing [];
                WriteLine (Some "Passed") None] in
  let st2 := Build_State Sample.externals Sample.clean ∅
               (trace _ st1 ++
                [Write "failing..."; Flush; HookRun failing [];
                 WriteLine (Some "Failed") None;
                 WriteLine (Some ("hookid: failing" +:+ nl)) None;
                 WriteLine (Some "boom") (Some ""); WriteLine None None]) in
  (_run_hooks_loop Sample.externals git_shim true Sample.args ∅ 80 [passing] 0 self
     (Sample.start Sample.clean) = (Ok (0, self), st1)
   /\ _run_single_hook Sample.externals git_shim self failing Sample.args ∅ 80 st1
      = (Ok (1, self), st2))
  /\ _run_hooks_loop Sample.externals git_shim true Sample.args ∅ 80
       ([passing] ++ failing :: [fixer]) 0 self (Sample.start Sample.clean)
     = (Ok (1, self), st2).
Proof.
  intros git_shim passing failing fixer self st1 st2.
  assert (Hpre : _run_hooks_loop Sample.externals git_shim true Sample.args ∅ 80
                   [passing] 0 self (Sample.start Sample.clean) = (Ok (0, self), st1))
    by (vm_compute; reflexivity).
  assert (Hhook : _run_single_hook Sample.externals git_shim self failing Sample.args
                    ∅ 80 st1 = (Ok (1, self), st2))
    by (vm_compute; reflexivity).
  split; [by split|].
  apply (fail_fast_stops_after_failure Sample.externals git_shim Sample.args ∅ 80
           [passing] [fixer] failing self self self _ st1 st2 1 Hpre Hhook).
  discriminate.
Defined.

Lemma preflight_violation_aborts_witness :
  let w := {| Sample.edits := 0%nat; Sample.unmerged := true;
              Sample.unstaged_config := false; Sample.merge_conflict := false |} in
  has_unmerged_paths Sample.externals (GitAdapter_init false None) w = true
  /\ exists msg,
       run Sample.externals ".pre-commit-config.yaml" {| store_directory := "/store" |}
         Sample.args (Sample.start w)
       = (Ok 1, Build_State Sample.externals w ∅ [LogError msg]).
Proof.
  intros w. split; [reflexivity|].
  destruct (preflight_violation_aborts Sample.externals ".pre-commit-config.yaml"
              {| store_directory := "/store" |} Sample.args (Sample.start w)
              (or_introl eq_refl)) as (msg & Hrun & _).
  exists msg. exact Hrun.
Defined.

Lemma hook_without_files_is_not_run_witness :
  let hook := Sample.hook "lint" ".py" false in
  let git_shim := GitAdapter_init false None in
  let self := {| filenames := ["b.txt"]; _types_cache := ∅ |} in
  (filenames_for_hook Sample.externals self hook (Sample.start Sample.clean)
     = (Ok ([], self), Sample.start Sample.clean)
   /\ hook_always_run hook = false)
  /\ exists st',
       _run_single_hook Sample.externals git_shim self hook Sample.args ∅ 80
         (Sample.start Sample.clean)
       = (Ok (0, self), st')
       /\ hook_runs (trace _ st') = [].
Proof.
  intros hook git_shim self.
  assert (Hnames : filenames_for_hook Sample.externals self hook
                     (Sample.start Sample.clean)
                   = (Ok ([], self), Sample.start Sample.clean))
    by (vm_compute; reflexivity).
  split; [split; [exact Hnames|reflexivity]|].
  destruct (hook_without_files_is_not_run Sample.externals git_shim self hook
              Sample.args ∅ 80 (Sample.start Sample.clean) self
              (Sample.start Sample.clean) Hnames)
    as (st' & Hrun & _ & Hruns & _).
  - apply not_elem_of_empty.
  - apply not_elem_of_empty.
  - reflexivity.
  - exists st'. split; [exact Hrun|exact Hruns].
Defined.

Lemma invoked_hook_result_witness :
  let hook := Sample.hook "passing" "" true in
  let git_shim := GitAdapter_init false None in
  let self := {| filenames := []; _types_cache := ∅ |} in
  (get_diff Sample.externals git_shim Sample.clean = Ok (DiffText "")
   /\ Sample.run_hook hook [] Sample.clean = (0, "", "", Sample.clean))
  /\ exists st',
       _run_single_hook Sample.externals git_shim self hook Sample.args ∅ 80
         (Sample.start Sample.clean)
       = (Ok (0, self), st').
Proof.
  intros hook git_shim self. split; [split; reflexivity|].
  assert (Hnames : filenames_for_hook Sample.externals self hook
                     (Sample.start Sample.clean)
                   = (Ok ([], self), Sample.start Sample.clean))
    by (vm_compute; reflexivity).
  destruct (invoked_hook_result Sample.externals git_shim self hook Sample.args ∅ 80
              (Sample.start Sample.clean) [] self (Sample.start Sample.clean)
              (DiffText "") (DiffText "") 0 "" "" Sample.clean Hnames)
    as (r & st' & Hrun & Hzero & _).
  - apply not_elem_of_empty.
  - apply not_elem_of_empty.
  - right. reflexivity.
  - reflexivity.
  - reflexivity.
  - reflexivity.
  - exists st'. rewrite Hrun. by rewrite (proj2 Hzero (conj eq_refl eq_refl)).
Defined.

Lemma modifying_hook_is_reported_witness :
  let hook := Sample.hook "fixer" "" true in
  let git_shim := GitAdapter_init false None in
  let self := {| filenames := []; _types_cache := ∅ |} in
  (get_diff Sample.externals git_shim Sample.clean = Ok (DiffText "")
   /\ Sample.run_hook hook [] Sample.clean = (0, "", "", Sample.edit Sample.clean)
   /\ get_diff Sample.externals git_shim (Sample.edit Sample.clean)
      = Ok (DiffText "diff --git a/a.py b/a.py"))
  /\ exists tail,
       trace _ (snd (_run_single_hook Sample.externals git_shim self hook Sample.args
                       ∅ 80 (Sample.start Sample.clean)))
       = tail
       /\ Write "Files were modified by this hook." ∈ tail.
Proof.
  intros hook git_shim self.
  split; [split; [reflexivity|split; reflexivity]|].
  assert (Hnames : filenames_for_hook Sample.externals self hook
                     (Sample.start Sample.clean)
                   = (Ok ([], self), Sample.start Sample.clean))
    by (vm_compute; reflexivity).
  destruct (modifying_hook_is_reported Sample.externals git_shim self hook Sample.args
              ∅ 80 (Sample.start Sample.clean) [] self (Sample.start Sample.clean)
              (DiffText "") (DiffText "diff --git a/a.py b/a.py") 0 "" ""
              (Sample.edit Sample.clean) Hnames)
    as (tail & Htr & _ & _ & Hin).
  - apply not_elem_of_empty.
  - apply not_elem_of_empty.
  - right. reflexivity.
  - reflexivity.
  - reflexivity.
  - reflexivity.
  - discriminate.
  - exists tail. split; [exact Htr|exact Hin].
Defined.

Lemma run_returns_0_or_1_witness :
  fst (run Sample.externals ".pre-commit-config.yaml" {| store_directory := "/store" |}
         Sample.args (Sample.start Sample.clean)) = Ok 1
  /\ (1 = 0 \/ 1 = 1).
Proof.
  assert (Hrun : fst (run Sample.externals ".pre-commit-config.yaml"
                        {| store_directory := "/store" |} Sample.args
                        (Sample.start Sample.clean)) = Ok 1)
    by (vm_compute; reflexivity).
  split; [exact Hrun|].
  exact (run_returns_0_or_1 Sample.externals _ _ _ _ 1 Hrun).
Defined.

Lemma run_hooks_loop_keeps_failure_witness :
  let self := {| filenames := []; _types_cache := ∅ |} in
  fst (_run_hooks_loop Sample.externals (GitAdapter_init false None) false Sample.args
         ∅ 80 [Sample.hook "passing" "" true] 1 self (Sample.start Sample.clean))
    = Ok (1, self)
  /\ 1 ≠ 0.
Proof.
  intros self.
  assert (Hrun : fst (_run_hooks_loop Sample.externals (GitAdapter_init false None)
                        false Sample.args ∅ 80 [Sample.hook "passing" "" true] 1 self
                        (Sample.start Sample.clean)) = Ok (1, self))
    by (vm_compute; reflexivity).
  split; [exact Hrun|].
  apply (run_hooks_loop_keeps_failure Sample.externals (GitAdapter_init false None)
           false Sample.args ∅ 80 [Sample.hook "passing" "" true] 1 self
           (Sample.start Sample.clean) 1 self); [discriminate|exact Hrun].
Defined.

Lemma run_with_git_never_raises_witness :
  args_without_git Sample.args = false
  /\ is_ok (fst (run Sample.externals ".pre-commit-config.yaml"
                   {| store_directory := "/store" |} Sample.args
                   (Sample.start Sample.clean))) = true.
Proof.
  split; [reflexivity|].
  apply (run_with_git_never_raises Sample.externals). reflexivity.
Defined.

Lemma run_without_git_runs_no_hook_witness :
  let args := {| args_hook := None; args_hook_stage := "commit"; args_files := [];
                 args_all_files := true; args_origin := None; args_source := None;
                 args_verbose := false; args_color := false;
                 args_show_diff_on_failure := false; args_without_git := true;
                 args_root := Some "."; args_commit_msg_filename := "" |} in
  args_without_git args = true
  /\ hook_runs (trace _ (snd (run Sample.externals ".pre-commit-config.yaml"
                               {| store_directory := "/store" |} args
                               (Sample.start Sample.clean)))) = [].
Proof.
  intros args. split; [reflexivity|].
  apply (run_without_git_runs_no_hook Sample.externals ".pre-commit-config.yaml"
           {| store_directory := "/store" |} args (Sample.start Sample.clean)).
  reflexivity.
Defined.

Lemma run_without_matching_hook_witness :
  let args := {| args_hook := Some "nope"; args_hook_stage := "commit";
                 args_files := []; args_all_files := false; args_origin := None;
                 args_source := None; args_verbose := false; args_color := false;
                 args_show_diff_on_failure := false; args_without_git := false;
                 args_root := None; args_commit_msg_filename := "" |} in
  Forall (fun hook => hook_id hook ≠ "nope" /\ hook_alias hook ≠ "nope") Sample.hooks
  /\ run Sample.externals ".pre-commit-config.yaml" {| store_directory := "/store" |}
       args (Sample.start Sample.clean)
     = (Ok 1, Build_State Sample.externals Sample.clean ∅
                [WriteLine (Some "No hook with id `nope`") None]).
Proof.
  intros args.
  assert (Hall : Forall (fun hook => hook_id hook ≠ "nope" /\ hook_alias hook ≠ "nope")
                        Sample.hooks)
    by (repeat constructor; discriminate).
  split; [exact Hall|].
  apply (run_without_matching_hook Sample.externals ".pre-commit-config.yaml"
           {| store_directory := "/store" |} args (Sample.start Sample.clean) "nope");
    try reflexivity; [discriminate|].
  eapply Forall_impl; [exact Hall|]. intros hook Hh. by left.
Defined.
